(** * Training-loop orchestration of the SFR repository

    A shallow embedding of the orchestration code of the repository:
    - [experiments/sl/train.py]: [checkpoint] and the supervised [train] loop;
    - [src/train.py]: the reinforcement-learning driver [train];
    - [src/rl/models/transitions/mlp.py]: [init] with its closures
      [predict_fn], [train_fn] and [dummy_update_fn];
    - [src/models/transitions/base.py]: the [TransitionModel] named tuple.

    Python floats are IEEE binary64 numbers and are modelled by Rocq's
    primitive floats; Python integers are [Z]; dictionaries and object
    attribute tables are [gmap string _]; exceptions are an explicit result
    type threaded through a small state-and-exception monad.  External
    libraries (torch, numpy, wandb, the environment, the agent) appear
    as interfaces whose operations are parameters of the development. *)

From Stdlib Require Import ZArith Floats.PrimFloat Strings.Ascii.
From Stdlib Require Floats.FloatAxioms.
From stdpp Require Import gmap strings list.

Set Warnings "-inexact-float,-clear-no-such-hyp".
Local Open Scope Z_scope.

(** ** Python runtime pieces shared by the scripts *)

Module Py.

(** Exceptions the scripts can meet.  [OtherError] stands for whatever an
    external call raises. *)
Inductive exn : Type :=
| ZeroDivisionError
| UnboundLocalError (name : string)
| AttributeError (what : string)
| TypeError (what : string)
| IndexError
| OSError (path : string)
| OtherError (what : string).

(** Outcome of a statement: a value, a raised exception, or a loop that
    has not ended within the steps granted to it. *)
Inductive result (A : Type) : Type :=
| Ok (a : A)
| Raise (e : exn)
| Diverge.
Arguments Ok {A} a.
Arguments Raise {A} e.
Arguments Diverge {A}.

(** Statements act on a state [S], leave a log of observable events [E]
    and may raise. *)
Definition M (S E A : Type) : Type := S -> S * list E * result A.

Definition ret {S E A} (a : A) : M S E A := fun s => (s, [], Ok a).

Definition bind {S E A B} (m : M S E A) (k : A -> M S E B) : M S E B :=
  fun s =>
    match m s with
    | (s1, l1, Ok a) => let '(s2, l2, r) := k a s1 in (s2, l1 ++ l2, r)
    | (s1, l1, Raise e) => (s1, l1, Raise e)
    | (s1, l1, Diverge) => (s1, l1, Diverge)
    end.

Definition raise {S E A} (e : exn) : M S E A := fun s => (s, [], Raise e).

Definition emit {S E} (e : E) : M S E unit := fun s => (s, [e], Ok tt).

(** [try: body / except: handler] with a bare [except], which catches
    every exception. *)
Definition try_except {S E A} (body handler : M S E A) : M S E A :=
  fun s =>
    match body s with
    | (s1, l1, Raise _) => let '(s2, l2, r) := handler s1 in (s2, l1 ++ l2, r)
    | r => r
    end.

Definition modify {S E} (f : S -> S) : M S E unit := fun s => (f s, [], Ok tt).
Definition gets {S E A} (f : S -> A) : M S E A := fun s => (s, [], Ok (f s)).

(** What a run shows: its events and its outcome. *)
Definition events {S E A} (r : S * list E * result A) : list E := snd (fst r).
Definition outcome {S E A} (r : S * list E * result A) : result A := snd r.
Definition final {S E A} (r : S * list E * result A) : S := fst (fst r).

(** [range(n)]: empty when [n <= 0]. *)
Definition range (n : Z) : list Z := Z.of_nat <$> seq 0 (Z.to_nat n).

(** [a % b] on integers: raises on a zero divisor, otherwise the result
    takes the sign of the divisor, as [Z.modulo] does. *)
Definition mod_ {S E} (a b : Z) : M S E Z :=
  if b =? 0 then raise ZeroDivisionError else ret (a mod b).

(** [a // b] on integers: floor division. *)
Definition floordiv {S E} (a b : Z) : M S E Z :=
  if b =? 0 then raise ZeroDivisionError else ret (a / b).

(** [int(a / b)] on integers: true division, then truncation towards
    zero (exact for operands below 2^53). *)
Definition int_truediv {S E} (a b : Z) : M S E Z :=
  if b =? 0 then raise ZeroDivisionError else ret (Z.quot a b).

(** [random.randint(lo, hi)]: an integer of [lo..hi], decided by the
    raw sample [raw] the generator delivers. *)
Definition randint (lo hi raw : Z) : Z := lo + raw mod (hi - lo + 1).

Definition ends_with_slash (a : string) : bool :=
  match String.get (Nat.pred (String.length a)) a with
  | Some c => bool_decide (c = "/"%char)
  | None => false
  end.

(** [os.path.join(a, b)] on POSIX. *)
Definition path_join (a b : string) : string :=
  if String.prefix "/" b then b
  else if bool_decide (a = "") || ends_with_slash a then a +:+ b
  else a +:+ "/" +:+ b.

(** [setattr(obj, name, v)] on an object whose attributes are a table. *)
Definition setattr {V} (name : string) (v : V) (obj : gmap string V)
  : gmap string V := <[name := v]> obj.

End Py.

Notation "x <- m ;; k" := (Py.bind m (fun x => k))
  (at level 100, m at next level, right associativity).
Notation "m ;;; k" := (Py.bind m (fun _ => k))
  (at level 100, right associativity).

(** ** The early stopper *)

(** What both training loops use of an early stopper: the constructor
    [EarlyStopper(patience=.., min_prior_precision=..)], the call
    [early_stopper(metric)] and [early_stopper.reset()]. *)
Class Stopper : Type := {
  stopper : Type;
  stopper_new : Z -> float -> stopper;
  stopper_call : stopper -> float -> stopper * bool;
  stopper_reset : stopper -> stopper
}.

Module EarlyStopping.

(** Modelled from the spec: the class [EarlyStopper] ([experiments/sl/utils.py],
    [src/rl/utils.py]) is not among the sources.  The spec gives it a
    [patience], an optional minimum-threshold guard, an internal counter
    of consecutive non-improving observations and the best metric seen;
    lower metrics are better (the metric is a validation loss). *)
Record EarlyStopper : Type := mkEarlyStopper {
  patience : Z;
  min_threshold : option float;
  counter : Z;
  best : float
}.

Section WithGuard.

(** The guard condition itself is left open by the spec ("e.g., a
    minimum precision threshold"): [guard_holds t m] says whether it is
    met for threshold [t] at the observation of [m]. *)
Variable guard_holds : float -> float -> bool.

Definition init (patience : Z) (min_threshold : option float) : EarlyStopper :=
  {| patience := patience; min_threshold := min_threshold;
     counter := 0; best := infinity |}.

Definition guard_met (s : EarlyStopper) (metric : float) : bool :=
  match min_threshold s with
  | None => true
  | Some t => guard_holds t metric
  end.

(** Modelled from the spec: [observe(metric) -> bool] "returns true once
    the metric has failed to improve for [patience] consecutive
    observations, false otherwise, and resets its internal counter
    whenever an improvement is observed"; when the guard is not met
    "the observation is ignored for stopping purposes but still
    recorded". *)
Definition observe (s : EarlyStopper) (metric : float) : EarlyStopper * bool :=
  if PrimFloat.ltb metric (best s) then
    ({| patience := patience s; min_threshold := min_threshold s;
        counter := 0; best := metric |}, false)
  else
    let c := counter s + 1 in
    ({| patience := patience s; min_threshold := min_threshold s;
        counter := c; best := best s |},
     guard_met s metric && (patience s <=? c)).

(** Modelled from the spec: "[reset()] clears internal counters to
    initial state". *)
Definition reset (s : EarlyStopper) : EarlyStopper :=
  init (patience s) (min_threshold s).


(** The stopper as the loops see it: the constructor of the scripts
    always passes a threshold. *)
Definition as_stopper : Stopper :=
  {| stopper := EarlyStopper;
     stopper_new := fun p t => init p (Some t);
     stopper_call := observe;
     stopper_reset := reset |}.

End WithGuard.



End EarlyStopping.

(** ** Seeding *)

(** The generators of the process (Python's [random], numpy, torch) and the
    helper [set_seed_everywhere] of the [utils] modules, which are not among
    the sources: it may reject a seed by raising.  [random_sample] is the
    raw sample Python's [random] generator delivers next. *)
Class Seeding : Type := {
  rng : Type;
  set_seed_everywhere : Z -> rng -> rng * Py.result unit;
  random_sample : rng -> Z * rng
}.

(** ** The supervised script, [experiments/sl/train.py] *)

Module SL.

(** What the script uses of the SFR model, its optimiser and the data
    loaders (lines 75-93 and 121-136 build them). *)
Class Learner : Type := {
  sfr : Type;
  optimizer : Type;
  state_dict : Type;
  batch : Type;
  sfr_state_dict : sfr -> state_dict;
  optimizer_state_dict : optimizer -> state_dict;
  (** the batches [train_loader] yields in an epoch *)
  train_loader : Z -> list batch;
  (** lines 146-150: loss, [zero_grad], [backward], [step] *)
  train_step : batch -> sfr * optimizer -> sfr * optimizer;
  (** [compute_metrics(pred_fn=map_pred_fn, data_loader=val_loader)["nll"]] *)
  val_nll : sfr -> float
}.

Record TrainConfig : Type := {
  random_seed : Z;
  n_epochs : Z;
  logging_epoch_freq : Z;
  early_stop_patience : Z;
  early_stop_min_prior_precision : float;
  wandb_use_wandb : bool
}.

Inductive event : Type :=
| LoggerInfo (msg : string)
| WandbInit
| WandbLog (key : string)
| Epoch (epoch : Z)                        (* the loop enters an epoch *)
| GradStep (epoch : Z)                     (* [optimizer.step()] *)
| Evaluate (epoch : Z) (nll : float)       (* lines 154-180 *)
| CheckpointCall (epoch : Z) (save_dir : string)
| TorchSave (path : string)
| Consult (epoch : Z) (nll : float) (signal : bool).

Section Script.

Context {seeding : Seeding} {learner : Learner} {early : Stopper}.

(** The content of a checkpoint file: a dictionary of state dicts. *)
#[local] Abbreviation blob := (gmap string state_dict).

Record World : Type := mkWorld {
  generators : rng;
  cudnn : gmap string bool;       (* attributes of [torch.backends.cudnn] *)
  fs : gmap string blob;          (* files written by [torch.save] *)
  writable : string -> bool;      (* can [torch.save] write this path? *)
  wandb_dir : string              (* [run.dir] of a wandb run *)
}.

#[local] Abbreviation Stmt := (Py.M World event).

Definition set_generators (g : rng) (w : World) : World :=
  {| generators := g; cudnn := cudnn w; fs := fs w;
     writable := writable w; wandb_dir := wandb_dir w |}.

Definition set_cudnn (c : gmap string bool) (w : World) : World :=
  {| generators := generators w; cudnn := c; fs := fs w;
     writable := writable w; wandb_dir := wandb_dir w |}.

Definition set_fs (f : gmap string blob) (w : World) : World :=
  {| generators := generators w; cudnn := cudnn w; fs := f;
     writable := writable w; wandb_dir := wandb_dir w |}.

Definition logger_info (msg : string) : Stmt unit := Py.emit (LoggerInfo msg).
Definition wandb_log (key : string) : Stmt unit := Py.emit (WandbLog key).

(** [torch.save(state, path)]: writes (or overwrites) one file, or
    raises when the path cannot be written. *)
Definition torch_save (state : blob) (path : string) : Stmt unit :=
  fun w =>
    if writable w path
    then (set_fs (<[path := state]> (fs w)) w, [TorchSave path], Py.Ok tt)
    else (w, [], Py.Raise (Py.OSError path)).

Definition when (b : bool) (m : Stmt unit) : Stmt unit :=
  if b then m else Py.ret tt.

(** Line 33: the dictionary literal that is saved. *)
Definition checkpoint_state (model : sfr) (opt : optimizer) : blob :=
  <["optimizer" := optimizer_state_dict opt]>
    (<["model" := sfr_state_dict model]> ∅).

(** Lines 28-39. *)
Definition checkpoint (model : sfr) (opt : optimizer) (save_dir : string)
    (verbose : bool) : Stmt string :=
  when verbose (logger_info "Saving SFR and optimiser...") ;;;
  let state := checkpoint_state model opt in
  let fname := "best_ckpt_dict.pt" in
  let save_name := Py.path_join save_dir fname in
  torch_save state save_name ;;;
  when verbose (logger_info "Finished saving model and optimiser etc") ;;;
  Py.ret save_name.

(** Lines 55-59. *)
Definition call_set_seed (seed : Z) : Stmt unit :=
  fun w =>
    let '(g, r) := set_seed_everywhere seed (generators w) in
    (set_generators g w, [], r).

Definition random_randint (lo hi : Z) : Stmt Z :=
  fun w =>
    let '(raw, g) := random_sample (generators w) in
    (set_generators g w, [], Py.Ok (Py.randint lo hi raw)).

Definition seed_block (cfg : TrainConfig) : Stmt unit :=
  Py.try_except
    (call_set_seed (random_seed cfg))
    (seed <- random_randint 0 10000 ;;
     call_set_seed seed).

(** Lines 69-70. *)
Definition set_backend_flags : Stmt unit :=
  Py.modify (fun w =>
    set_cudnn (Py.setattr "benchmark" false
                 (Py.setattr "determinstic" true (cudnn w))) w).

(** Lines 95-119: [run] is bound only when wandb is in use. *)
Definition init_wandb (cfg : TrainConfig) : Stmt (option string) :=
  if wandb_use_wandb cfg
  then Py.emit WandbInit ;;; d <- Py.gets wandb_dir ;; Py.ret (Some d)
  else Py.ret None.

(** The variables the loop updates. *)
Record LoopState : Type := mkLoop {
  best_nll : float;
  model : sfr * optimizer;
  early_stopper : stopper
}.

(** Lines 145-151: one pass over the training batches. *)
Fixpoint train_batches (epoch : Z) (bs : list batch)
    (m : sfr * optimizer) : Stmt (sfr * optimizer) :=
  match bs with
  | [] => Py.ret m
  | b :: rest =>
      let m1 := train_step b m in
      Py.emit (GradStep epoch) ;;;
      wandb_log "loss" ;;;
      train_batches epoch rest m1
  end.

(** What a pass over the batches [bs] leaves in the log, and the model it
    ends with. *)
Definition grad_events (epoch : Z) (bs : list batch) : list event :=
  bs ≫= (fun _ => [GradStep epoch; WandbLog "loss"]).

Definition trained (bs : list batch) (m : sfr * optimizer) : sfr * optimizer :=
  foldl (fun m b => train_step b m) m bs.

(** Lines 182-186. *)
Definition maybe_checkpoint (run : option string) (epoch : Z)
    (nll : float) (st : LoopState) : Stmt float :=
  if PrimFloat.ltb nll (best_nll st) then
    save_dir <- match run with
                | Some d => Py.ret d
                | None => Py.raise (Py.UnboundLocalError "run")
                end ;;
    Py.emit (CheckpointCall epoch save_dir) ;;;
    _ <- checkpoint (fst (model st)) (snd (model st)) save_dir false ;;
    wandb_log "best_test/" ;;;
    wandb_log "best_val/" ;;;
    Py.ret nll
  else Py.ret (best_nll st).

(** Lines 153-189: the evaluation block; the boolean says whether the
    loop breaks. *)
Definition evaluate (run : option string) (epoch : Z) (st : LoopState)
    : Stmt (LoopState * bool) :=
  let nll := val_nll (fst (model st)) in
  wandb_log "val_loss" ;;;
  Py.emit (Evaluate epoch nll) ;;;
  wandb_log "train/" ;;;
  wandb_log "val/" ;;;
  wandb_log "test/" ;;;
  wandb_log "epoch" ;;;
  best <- maybe_checkpoint run epoch nll st ;;
  let '(es, stop) := stopper_call (early_stopper st) nll in
  Py.emit (Consult epoch nll stop) ;;;
  let st1 := {| best_nll := best; model := model st; early_stopper := es |} in
  if stop then
    logger_info "Early stopping criteria met, stopping training..." ;;;
    Py.ret (st1, true)
  else Py.ret (st1, false).

(** Lines 144-189: the body of the loop for one epoch. *)
Definition epoch_body (freq : Z) (run : option string) (epoch : Z)
    (st : LoopState) : Stmt (LoopState * bool) :=
  Py.emit (Epoch epoch) ;;;
  m <- train_batches epoch (train_loader epoch) (model st) ;;
  let st1 := {| best_nll := best_nll st; model := m;
                early_stopper := early_stopper st |} in
  r <- Py.mod_ epoch freq ;;
  if r =? 0 then evaluate run epoch st1 else Py.ret (st1, false).

(** [for epoch in ...: body], left by [break]. *)
Fixpoint for_epochs (freq : Z) (run : option string) (epochs : list Z)
    (st : LoopState) : Stmt LoopState :=
  match epochs with
  | [] => Py.ret st
  | epoch :: rest =>
      r <- epoch_body freq run epoch st ;;
      if snd r then Py.ret (fst r) else for_epochs freq run rest (fst r)
  end.

(** Lines 143-189. *)
Definition train_loop (cfg : TrainConfig) (run : option string)
    (m : sfr * optimizer) (es : stopper) : Stmt LoopState :=
  let st := {| best_nll := infinity; model := m; early_stopper := es |} in
  for_epochs (logging_epoch_freq cfg) run (Py.range (n_epochs cfg)) st.

(** Lines 61-200.  [m] is the model and optimiser that lines 75-93 and
    121 build. *)
Definition train_after_seed (cfg : TrainConfig) (m : sfr * optimizer) : Stmt sfr :=
  set_backend_flags ;;;
  run <- init_wandb cfg ;;
  patience <- Py.int_truediv (early_stop_patience cfg) (logging_epoch_freq cfg) ;;
  let es := stopper_new patience (early_stop_min_prior_precision cfg) in
  st <- train_loop cfg run m es ;;
  logger_info "Finished training" ;;;
  Py.ret (fst (model st)).

(** Lines 54-200. *)
Definition train (cfg : TrainConfig) (m : sfr * optimizer) : Stmt sfr :=
  seed_block cfg ;;;
  train_after_seed cfg m.

(** The events of lines 95-119. *)
Definition wandb_events (cfg : TrainConfig) : list event :=
  if wandb_use_wandb cfg then [WandbInit] else [].

(** *** Reading a log *)

Definition started_epochs (tr : list event) : list Z :=
  omap (fun ev => match ev with Epoch e => Some e | _ => None end) tr.

Definition evaluations (tr : list event) : list (Z * float) :=
  omap (fun ev => match ev with Evaluate e x => Some (e, x) | _ => None end) tr.

Definition evaluated_epochs (tr : list event) : list Z :=
  fst <$> evaluations tr.

Definition checkpoint_epochs (tr : list event) : list Z :=
  omap (fun ev => match ev with CheckpointCall e _ => Some e | _ => None end) tr.

Definition saved_paths (tr : list event) : list string :=
  omap (fun ev => match ev with TorchSave p => Some p | _ => None end) tr.

(** The epoch of each optimiser step, in order. *)
Definition grad_epochs (tr : list event) : list Z :=
  omap (fun ev => match ev with GradStep e => Some e | _ => None end) tr.

(** The model after the epochs [epochs], none of them cut short. *)
Definition trained_over (epochs : list Z) (m : sfr * optimizer) : sfr * optimizer :=
  foldl (fun m e => trained (train_loader e) m) m epochs.

(** The stop signal of the early stopper, and what counts as further
    work of the loop: anything but a message of the logger. *)
Definition is_signal (ev : event) : Prop :=
  match ev with Consult _ _ true => True | _ => False end.

Definition is_work (ev : event) : Prop :=
  match ev with LoggerInfo _ => False | _ => True end.

(** The checkpointing policy in the spec's words: starting from a best
    value, the evaluation points whose nll is strictly below the best
    seen so far, the best moving to the new nll at each of them. *)
Fixpoint improving_epochs (best : float) (evals : list (Z * float)) : list Z :=
  match evals with
  | [] => []
  | (e, x) :: rest =>
      if PrimFloat.ltb x best then e :: improving_epochs x rest
      else improving_epochs best rest
  end.

Fixpoint best_after (best : float) (evals : list (Z * float)) : float :=
  match evals with
  | [] => best
  | (_, x) :: rest =>
      best_after (if PrimFloat.ltb x best then x else best) rest
  end.

End Script.

End SL.

(** ** Named tuples *)

Module NamedTuple.

(** A class declared as [class C(NamedTuple)]: its name and its fields, in
    the order of declaration ([C._fields]). *)
Record decl : Type := {
  name : string;
  fields : list string
}.

Definition keys {V : Type} (kwargs : list (string * V)) : list string :=
  fst <$> kwargs.

Definition lookup_kw {V : Type} (kwargs : list (string * V)) (k : string) : option V :=
  snd <$> list_find (fun kv => fst kv = k) kwargs ≫= (fun iv => Some (snd iv)).

(** [C(k1=v1, ..)]: a keyword that is no field, or a field that is not
    given, raises [TypeError]; otherwise the values are stored in the
    order of the fields. *)
Definition new {V : Type} (d : decl) (kwargs : list (string * V))
  : Py.result (list (string * V)) :=
  if bool_decide (Forall (fun k => k ∈ fields d) (keys kwargs)) then
    match mapM (fun f => (fun v => (f, v)) <$> lookup_kw kwargs f) (fields d) with
    | Some vs => Py.Ok vs
    | None => Py.Raise (Py.TypeError "missing required argument")
    end
  else Py.Raise (Py.TypeError "unexpected keyword argument").

End NamedTuple.

(** ** The transition model, [src/models/transitions/base.py] and
    [src/rl/models/transitions/mlp.py] *)

Module Transitions.

(** Lines 13-15 of [src/models/transitions/base.py]: two fields. *)
Definition TransitionModel : NamedTuple.decl :=
  {| NamedTuple.name := "TransitionModel";
     NamedTuple.fields := ["predict"; "train"] |}.

(** Modelled from the spec: [src/rl/models/transitions/base.py], from which
    [mlp.py] imports its [TransitionModel], is not among the sources; the
    spec describes the bundle as "a record of predict/train/update
    functions". *)
Definition RLTransitionModel : NamedTuple.decl :=
  {| NamedTuple.name := "TransitionModel";
     NamedTuple.fields := ["predict"; "train"; "update"] |}.

(** What [mlp.py] uses of torch and of the replay buffer. *)
Class Torch : Type := {
  tensor : Type;
  net : Type;                       (* the network with its parameters *)
  replay_buffer : Type;
  (** [torch.concat([a, b], -1)] *)
  concat : tensor -> tensor -> Py.result tensor;
  (** [a + b] *)
  add : tensor -> tensor -> Py.result tensor;
  (** [network.forward(x)] *)
  forward : net -> tensor -> Py.result tensor;
  (** lines 52-63: sample a batch, compute the loss, step the optimiser;
      the arguments are the learning rate and the batch size *)
  grad_iteration : float -> Z -> replay_buffer -> net -> Py.result (net * float)
}.

(** [StatePrediction] of [src/rl/custom_types.py]: the variances are given
    the Python integer 0 by [predict_fn]. *)
Inductive value {T : Type} : Type :=
| VInt (z : Z)
| VTensor (t : T).
Arguments value T : clear implicits.

Record StatePrediction {T : Type} : Type := {
  state_mean : T;
  state_var : value T;
  noise_var : value T
}.
Arguments StatePrediction T : clear implicits.

Inductive event : Type :=
| LoggerInfo (msg : string)
| WandbLog (key : string)
| Iteration (i : Z)                        (* the loop enters iteration i *)
| OptimizerStep (i : Z)                    (* line 63 *)
| Consult (i : Z) (loss : float) (signal : bool).

Section Mlp.

Context {torch : Torch} {early : Stopper}.

(** The objects the closures of [init] share: the network, which
    [train_fn] updates and [predict_fn] reads, and the early stopper. *)
Record World : Type := mkWorld {
  network : net;
  early_stopper : option stopper
}.

#[local] Abbreviation Stmt := (Py.M World event).

Definition lift {A : Type} (r : Py.result A) : Stmt A := fun w => (w, [], r).

(** Lines 33-43. *)
Definition predict_fn (state action : tensor) : Stmt (StatePrediction tensor) :=
  state_action_input <- lift (concat state action) ;;
  nw <- Py.gets network ;;
  delta_state <- lift (forward nw state_action_input) ;;
  mean <- lift (add state delta_state) ;;
  Py.ret {| state_mean := mean; state_var := VInt 0; noise_var := VInt 0 |}.

(** Lines 52-73: one iteration; the boolean says whether the loop breaks. *)
Definition iteration (learning_rate : float) (batch_size : Z)
    (wandb_loss_name : option string) (buffer : replay_buffer) (i : Z)
    : Stmt bool :=
  Py.emit (Iteration i) ;;;
  nw <- Py.gets network ;;
  step <- lift (grad_iteration learning_rate batch_size buffer nw) ;;
  es <- Py.gets early_stopper ;;
  Py.modify (fun w => {| network := fst step; early_stopper := early_stopper w |}) ;;;
  Py.emit (OptimizerStep i) ;;;
  match wandb_loss_name with
  | Some key => Py.emit (WandbLog key)
  | None => Py.ret tt
  end ;;;
  Py.emit (LoggerInfo "Iteration") ;;;
  match es with
  | None => Py.raise (Py.TypeError "'NoneType' object is not callable")
  | Some s =>
      let '(s1, stop_flag) := stopper_call s (snd step) in
      Py.modify (fun w => {| network := network w; early_stopper := Some s1 |}) ;;;
      Py.emit (Consult i (snd step) stop_flag) ;;;
      if stop_flag then
        Py.emit (LoggerInfo "Early stopping criteria met, stopping training") ;;;
        Py.emit (LoggerInfo "Breaking out loop") ;;;
        Py.ret true
      else Py.ret false
  end.

Fixpoint for_iterations (body : Z -> Stmt bool) (todo : list Z) : Stmt unit :=
  match todo with
  | [] => Py.ret tt
  | i :: rest =>
      stop <- body i ;;
      if stop then Py.ret tt else for_iterations body rest
  end.

(** Lines 45-73. *)
Definition train_fn (learning_rate : float) (num_iterations batch_size : Z)
    (wandb_loss_name : option string) (buffer : replay_buffer) : Stmt unit :=
  es <- Py.gets early_stopper ;;
  match es with
  | None => Py.raise (Py.AttributeError "'NoneType' object has no attribute 'reset'")
  | Some s =>
      Py.modify (fun w => {| network := network w;
                             early_stopper := Some (stopper_reset s) |}) ;;;
      for_iterations (iteration learning_rate batch_size wandb_loss_name buffer)
        (Py.range num_iterations)
  end.

(** Lines 75-76. *)
Definition dummy_update_fn {X Y : Type} (x : X) (y : Y) : Stmt unit := Py.ret tt.

(** The three closures [init] returns, as the values of a named tuple. *)
Inductive closure : Type :=
| PredictFn (f : tensor -> tensor -> Stmt (StatePrediction tensor))
| TrainFn (f : replay_buffer -> Stmt unit)
| UpdateFn (f : tensor -> tensor -> Stmt unit).

(** Line 78: the keyword arguments of the call [TransitionModel(..)]. *)
Definition init_kwargs (learning_rate : float) (num_iterations batch_size : Z)
    (wandb_loss_name : option string) : list (string * closure) :=
  [("predict", PredictFn predict_fn);
   ("train", TrainFn (train_fn learning_rate num_iterations batch_size wandb_loss_name));
   ("update", UpdateFn dummy_update_fn)].

(** Lines 17-78, against a declaration [d] of [TransitionModel]. *)
Definition init (d : NamedTuple.decl) (learning_rate : float)
    (num_iterations batch_size : Z) (wandb_loss_name : option string)
    : Py.result (list (string * closure)) :=
  NamedTuple.new d (init_kwargs learning_rate num_iterations batch_size wandb_loss_name).

(** *** Reading a log *)

Definition is_signal (ev : event) : Prop :=
  match ev with Consult _ _ true => True | _ => False end.

Definition is_work (ev : event) : Prop :=
  match ev with LoggerInfo _ => False | _ => True end.

Definition iterations (tr : list event) : list Z :=
  omap (fun ev => match ev with Iteration i => Some i | _ => None end) tr.

Definition optimizer_steps (tr : list event) : list Z :=
  omap (fun ev => match ev with OptimizerStep i => Some i | _ => None end) tr.

(** The losses shown to the early stopper, in order. *)
Definition consulted (tr : list event) : list float :=
  omap (fun ev => match ev with Consult _ x _ => Some x | _ => None end) tr.

(** The stopper after it has been called on each of [losses] in turn. *)
Definition fed (s : stopper) (losses : list float) : stopper :=
  foldl (fun s x => fst (stopper_call s x)) s losses.

End Mlp.

End Transitions.

(** ** The reinforcement-learning driver, [src/train.py] *)

Module RL.

Inductive StepType : Type := FIRST | MID | LAST.

(** A [dm_env] time step as the wrapper of the repository extends it: it
    also carries the action that led to it. *)
Record TimeStep {O A : Type} : Type := {
  ts_observation : O;
  ts_reward : float;
  ts_action : A;
  step_type : StepType
}.
Arguments TimeStep O A : clear implicits.

Definition last {O A : Type} (ts : TimeStep O A) : bool :=
  match step_type ts with LAST => true | _ => false end.

(** The environment [hydra.utils.instantiate(cfg.env)] builds. *)
Class Environment : Type := {
  env : Type;
  observation : Type;
  action : Type;
  observation_shape : list Z;       (* [env.observation_spec().shape] *)
  action_shape : list Z;            (* [env.action_spec().shape] *)
  action_dtype : string;            (* [env.action_spec().dtype] *)
  env_reset : env -> TimeStep observation action * env;
  env_step : action -> env -> TimeStep observation action * env
}.

(** An entry of the replay buffer (lines 134-150). *)
Record Transition {O A : Type} : Type := {
  tr_state : O;
  tr_action : A;
  tr_reward : float;
  tr_next_state : O
}.
Arguments Transition O A : clear implicits.

(** numpy's generator, the replay buffer of torchrl and the agent
    [hydra.utils.instantiate(cfg.agent)] builds.  The agent computes on the
    backend whose determinism the script tries to switch on: what the
    backend adds of its own to a computation is the [Z] the agent's
    operations take. *)
Class Agent {seeding : Seeding} {environment : Environment} : Type := {
  agent : Type;
  buffer : Type;
  (** [np.random.uniform(lo, hi, shape).astype(dtype)] *)
  np_uniform : Z -> Z -> list Z -> string -> rng -> action * rng;
  (** [TensorDictReplayBuffer(storage=LazyTensorStorage(capacity), batch_size=..)] *)
  buffer_new : Z -> Z -> buffer;
  buffer_add : Transition observation action -> buffer -> buffer;
  (** [agent.select_action(observation, eval_mode=.., t0=..)] *)
  select_action : observation -> bool -> bool -> Z -> agent * rng -> action * (agent * rng);
  (** [agent.train(replay_buffer)] *)
  agent_train : buffer -> Z -> agent * rng -> agent * rng
}.

Record Config : Type := {
  random_seed : Z;
  num_train_episodes : Z;
  init_random_episodes : Z;
  episode_length : Z;
  env_action_repeat : Z;
  batch_size : Z;
  wandb_use_wandb : bool
}.

(** Where an action comes from: line 119 or line 123. *)
Inductive source : Type :=
| Uniform (lo hi : Z) (shape : list Z) (dtype : string)
| Policy.

Inductive event {A : Type} : Type :=
| LoggerInfo (msg : string)
| WandbInit
| WandbLog (key : string) (step : Z)
| EnvReset (episode : Z)
| Act (episode : Z) (src : source) (a : A)     (* lines 118-128 *)
| EnvStep (episode : Z) (a : A)                (* line 138 *)
| BufferAdd (episode : Z)                      (* line 151 *)
| Collected (episode : Z) (t : Z)              (* line 157: the while loop has ended *)
| AgentTrain (episode : Z).                    (* line 188 *)
Arguments event A : clear implicits.

Section Script.

Context {seeding : Seeding} {environment : Environment} {the_agent : Agent}.

Record World : Type := mkWorld {
  generators : rng;
  cudnn : gmap string bool;         (* attributes of [torch.backends.cudnn] *)
  backend_noise : nat -> Z;         (* what the backend adds, call by call *)
  backend_calls : nat
}.

#[local] Abbreviation Stmt := (Py.M World (event action)).

Definition set_generators (g : rng) (w : World) : World :=
  {| generators := g; cudnn := cudnn w;
     backend_noise := backend_noise w; backend_calls := backend_calls w |}.

Definition set_cudnn (c : gmap string bool) (w : World) : World :=
  {| generators := generators w; cudnn := c;
     backend_noise := backend_noise w; backend_calls := backend_calls w |}.

Definition next_backend_noise : Stmt Z :=
  fun w =>
    ({| generators := generators w; cudnn := cudnn w;
        backend_noise := backend_noise w; backend_calls := S (backend_calls w) |},
     [], Py.Ok (backend_noise w (backend_calls w))).

Definition logger_info (msg : string) : Stmt unit := Py.emit (LoggerInfo msg).

(** Lines 28-32. *)
Definition call_set_seed (seed : Z) : Stmt unit :=
  fun w =>
    let '(g, r) := set_seed_everywhere seed (generators w) in
    (set_generators g w, [], r).

Definition random_randint (lo hi : Z) : Stmt Z :=
  fun w =>
    let '(raw, g) := random_sample (generators w) in
    (set_generators g w, [], Py.Ok (Py.randint lo hi raw)).

Definition seed_block (cfg : Config) : Stmt unit :=
  Py.try_except
    (call_set_seed (random_seed cfg))
    (seed <- random_randint 0 10000 ;;
     call_set_seed seed).

(** Lines 37-38. *)
Definition set_backend_flags : Stmt unit :=
  Py.modify (fun w =>
    set_cudnn (Py.setattr "benchmark" false
                 (Py.setattr "determinstic" true (cudnn w))) w).

(** [shape[0]] *)
Definition first_dim (shape : list Z) : Stmt Z :=
  match shape with
  | d :: _ => Py.ret d
  | [] => Py.raise Py.IndexError
  end.

(** The objects the loop works on. *)
Record Objects : Type := mkObjects {
  the_env : env;
  agent_state : agent;
  replay_buffer : buffer;
  global_step : Z
}.

(** Lines 118-128: the action of a step. *)
Definition choose_action (cfg : Config) (episode_idx : Z)
    (time_step : TimeStep observation action) (o : Objects) : Stmt (action * Objects) :=
  if episode_idx <? init_random_episodes cfg then
    g <- Py.gets generators ;;
    let '(a, g1) := np_uniform (-1) 1 action_shape action_dtype g in
    Py.modify (set_generators g1) ;;;
    Py.emit (Act episode_idx (Uniform (-1) 1 action_shape action_dtype) a) ;;;
    Py.ret (a, o)
  else
    noise <- next_backend_noise ;;
    g <- Py.gets generators ;;
    let t0 := match step_type time_step with FIRST => true | _ => false end in
    let '(a, (ag, g1)) :=
      select_action (ts_observation time_step) false t0 noise (agent_state o, g) in
    Py.modify (set_generators g1) ;;;
    Py.emit (Act episode_idx Policy a) ;;;
    Py.ret (a, {| the_env := the_env o; agent_state := ag;
                  replay_buffer := replay_buffer o; global_step := global_step o |}).

(** Lines 117-155: the [while not time_step.last()] loop, granted [fuel]
    turns. *)
Fixpoint collect (fuel : nat) (cfg : Config) (episode_idx : Z)
    (time_step : TimeStep observation action) (o : Objects)
    (episode_reward : float) (t : Z) : Stmt (Objects * Z) :=
  if last time_step then Py.ret (o, t)
  else
    match fuel with
    | O => fun w => (w, [], Py.Diverge)
    | S fuel' =>
        r <- choose_action cfg episode_idx time_step o ;;
        let '(a, o1) := r in
        let '(time_step1, e1) := env_step a (the_env o1) in
        Py.emit (EnvStep episode_idx a) ;;;
        let td := {| tr_state := ts_observation time_step;
                     tr_action := ts_action time_step1;
                     tr_reward := ts_reward time_step1;
                     tr_next_state := ts_observation time_step1 |} in
        Py.emit (BufferAdd episode_idx) ;;;
        let o2 := {| the_env := e1; agent_state := agent_state o1;
                     replay_buffer := buffer_add td (replay_buffer o1);
                     global_step := global_step o1 + 1 |} in
        collect fuel' cfg episode_idx time_step1 o2
          (PrimFloat.add episode_reward (ts_reward time_step1)) (t + 1)
    end.

(** What the log of an episode shows once its steps are collected
    (lines 157-177). *)
Definition episode_tail (cfg : Config) (ep t env_steps : Z) : list (event action) :=
  [Collected ep t; LoggerInfo "TRAINING | Episode | Reward"]
  ++ (if wandb_use_wandb cfg then [WandbLog "train/" env_steps] else []).

(** Lines 111-188: one episode. *)
Definition episode (fuel : nat) (cfg : Config) (episode_idx : Z) (o : Objects)
    : Stmt Objects :=
  logger_info "Episode | Collecting data" ;;;
  let '(time_step, e1) := env_reset (the_env o) in
  Py.emit (EnvReset episode_idx) ;;;
  let o1 := {| the_env := e1; agent_state := agent_state o;
               replay_buffer := replay_buffer o; global_step := global_step o |} in
  r <- collect fuel cfg episode_idx time_step o1 0%float 0 ;;
  let '(o2, t) := r in
  Py.emit (Collected episode_idx t) ;;;
  let env_step_count := global_step o2 * env_action_repeat cfg in
  logger_info "TRAINING | Episode | Reward" ;;;
  (if wandb_use_wandb cfg then Py.emit (WandbLog "train/" env_step_count)
   else Py.ret tt) ;;;
  if init_random_episodes cfg <=? episode_idx then
    logger_info "Training agent" ;;;
    noise <- next_backend_noise ;;
    g <- Py.gets generators ;;
    let '(ag, g1) := agent_train (replay_buffer o2) noise (agent_state o2, g) in
    Py.modify (set_generators g1) ;;;
    Py.emit (AgentTrain episode_idx) ;;;
    Py.ret {| the_env := the_env o2; agent_state := ag;
              replay_buffer := replay_buffer o2; global_step := global_step o2 |}
  else Py.ret o2.

(** [for episode_idx in range(cfg.num_train_episodes)] *)
Fixpoint for_episodes (fuel : nat) (cfg : Config) (episodes : list Z)
    (o : Objects) : Stmt Objects :=
  match episodes with
  | [] => Py.ret o
  | episode_idx :: rest =>
      o1 <- episode fuel cfg episode_idx o ;;
      for_episodes fuel cfg rest o1
  end.

(** Lines 34-188.  [env0] and [agent0] are what lines 45 and 104
    instantiate. *)
Definition train_after_seed (fuel : nat) (cfg : Config) (env0 : env)
    (agent0 : agent) : Stmt unit :=
  set_backend_flags ;;;
  episode_length1 <- Py.floordiv (episode_length cfg) (env_action_repeat cfg) ;;
  let num_train_steps := num_train_episodes cfg * episode_length1 in
  _ <- first_dim observation_shape ;;
  _ <- first_dim action_shape ;;
  (if wandb_use_wandb cfg then Py.emit WandbInit else Py.ret tt) ;;;
  let num_workers := 4 in
  let buf := buffer_new (num_train_steps / Z.max 1 num_workers) (batch_size cfg) in
  _ <- for_episodes fuel cfg (Py.range (num_train_episodes cfg))
         {| the_env := env0; agent_state := agent0;
            replay_buffer := buf; global_step := 0 |} ;;
  Py.ret tt.

(** Lines 27-188. *)
Definition train (fuel : nat) (cfg : Config) (env0 : env) (agent0 : agent)
    : Stmt unit :=
  seed_block cfg ;;;
  train_after_seed fuel cfg env0 agent0.

(** *** Reading a log *)


(** The episode an event belongs to. *)
Definition episode_of (ev : event action) : option Z :=
  match ev with
  | EnvReset e | Act e _ _ | EnvStep e _ | BufferAdd e | Collected e _
  | AgentTrain e => Some e
  | _ => None
  end.

Definition trained_episodes (tr : list (event action)) : list Z :=
  omap (fun ev => match ev with AgentTrain e => Some e | _ => None end) tr.

(** The events of the steps of an episode. *)
Definition is_step_of (ep : Z) (ev : event action) : Prop :=
  match ev with
  | Act e _ _ | EnvStep e _ | BufferAdd e => e = ep
  | _ => False
  end.

(** The actions chosen, and the actions given to the environment. *)
Definition acted (tr : list (event action)) : list (Z * action) :=
  omap (fun ev => match ev with Act e _ a => Some (e, a) | _ => None end) tr.

Definition stepped (tr : list (event action)) : list (Z * action) :=
  omap (fun ev => match ev with EnvStep e a => Some (e, a) | _ => None end) tr.

(** An action is chosen as the phase of its episode demands. *)
Definition act_follows_phase (cfg : Config) (ev : event action) : Prop :=
  match ev with
  | Act e src _ =>
      if e <? init_random_episodes cfg
      then src = Uniform (-1) 1 action_shape action_dtype
      else src = Policy
  | _ => True
  end.

(** The episodes at which the environment is reset, the episodes whose
    collection ended with the number of steps counted by [t], the episodes
    of the entries added to the replay buffer, and the [step] of each call
    of [wandb.log]. *)
Definition reset_episodes (tr : list (event action)) : list Z :=
  omap (fun ev => match ev with EnvReset e => Some e | _ => None end) tr.

Definition collected (tr : list (event action)) : list (Z * Z) :=
  omap (fun ev => match ev with Collected e t => Some (e, t) | _ => None end) tr.

Definition buffer_adds (tr : list (event action)) : list Z :=
  omap (fun ev => match ev with BufferAdd e => Some e | _ => None end) tr.

Definition is_wandb_log (ev : event action) : Prop :=
  match ev with WandbLog _ _ => True | _ => False end.

(** The number of steps the environment made in episode [ep]. *)
Definition steps_of (ep : Z) (tr : list (event action)) : Z :=
  Z.of_nat (length (filter (fun p => p.1 = ep) (stepped tr))).

(** From the time step [ts] and the state [e] of the environment, the
    episode ends after at most [k] steps, whatever the actions. *)
Fixpoint ends_within (k : nat) (ts : TimeStep observation action) (e : env) : Prop :=
  last ts = true
  \/ match k with
     | O => False
     | S k' => forall a, ends_within k' (fst (env_step a e)) (snd (env_step a e))
     end.

End Script.

End RL.

(** ** Logs *)

Module Log.

Section Halting.

Context {E : Type} (signal work : E -> Prop).

(** A log in which nothing that counts as [work] follows a [signal]. *)
Fixpoint halts_at_signal (tr : list E) : Prop :=
  match tr with
  | [] => True
  | ev :: rest =>
      (signal ev -> Forall (fun ev' => ~ work ev') rest) /\ halts_at_signal rest
  end.

End Halting.

End Log.

(** ** Small instances, to run the scripts on concrete inputs *)

Module Toy.

(** A seeding helper that, like numpy's, accepts the seeds of [0, 2^32)
    only; the generator state is a number stepped by a linear congruence. *)
Definition seeding : Seeding :=
  {| rng := Z;
     set_seed_everywhere := fun seed g =>
       if (0 <=? seed) && (seed <? 2 ^ 32) then (seed, Py.Ok tt)
       else (g, Py.Raise (Py.OtherError "ValueError"));
     random_sample := fun g => (g, (g * 1103515245 + 12345) mod 2 ^ 31) |}.

(** A seeding helper that fails whatever the seed (a broken backend). *)
Definition broken_seeding : Seeding :=
  {| rng := Z;
     set_seed_everywhere := fun _ g => (g, Py.Raise (Py.OtherError "RuntimeError"));
     random_sample := fun g => (g, g + 1) |}.

(** A learner whose model is the list of validation nlls it will show,
    one per epoch of training. *)
Definition learner : SL.Learner :=
  {| SL.sfr := list float;
     SL.optimizer := Z;
     SL.state_dict := list float;
     SL.batch := unit;
     SL.sfr_state_dict := fun m => m;
     SL.optimizer_state_dict := fun _ => [];
     SL.train_loader := fun _ => [tt];
     SL.train_step := fun _ m => (tail (fst m), snd m + 1);
     SL.val_nll := fun m => hd infinity m |}.

(** A stopper that never signals. *)
Definition silent : Stopper :=
  {| stopper := unit;
     stopper_new := fun _ _ => tt;
     stopper_call := fun s _ => (s, false);
     stopper_reset := fun s => s |}.

Definition world : @SL.World seeding learner :=
  @SL.mkWorld seeding learner 7 ∅ ∅ (fun _ => true) "wandb/run-1/files".

Definition cfg : SL.TrainConfig :=
  {| SL.random_seed := 42; SL.n_epochs := 12; SL.logging_epoch_freq := 5;
     SL.early_stop_patience := 15;
     SL.early_stop_min_prior_precision := 0%float;
     SL.wandb_use_wandb := true |}.

(** A configuration whose seed numpy rejects, and the world of a process
    whose seeding helper is broken. *)
Definition bad_cfg : SL.TrainConfig :=
  {| SL.random_seed := -1; SL.n_epochs := 12; SL.logging_epoch_freq := 5;
     SL.early_stop_patience := 15;
     SL.early_stop_min_prior_precision := 0%float;
     SL.wandb_use_wandb := true |}.

Definition broken_world : @SL.World broken_seeding learner :=
  @SL.mkWorld broken_seeding learner 7 ∅ ∅ (fun _ => true) "wandb/run-1/files".

(** Configurations of the supervised script by their epochs, their
    logging frequency and their use of wandb; and a world in which no file
    can be written. *)
Definition sl_cfg (n freq : Z) (wandb : bool) : SL.TrainConfig :=
  {| SL.random_seed := 42; SL.n_epochs := n; SL.logging_epoch_freq := freq;
     SL.early_stop_patience := 15;
     SL.early_stop_min_prior_precision := 0%float;
     SL.wandb_use_wandb := wandb |}.


(** A model whose validation nll improves twice: at epoch 0 and at
    epoch 5. *)
Definition model0 : list float * Z :=
  ([9; 1.0; 1.0; 1.0; 1.0; 1.0; 0.9; 0.9; 0.9; 0.9; 0.9; 0.95; 0.95]%float, 0).

(** An environment whose episodes last two steps; observations and
    actions are numbers. *)
Definition environment : RL.Environment :=
  {| RL.env := Z;
     RL.observation := Z;
     RL.action := Z;
     RL.observation_shape := [1];
     RL.action_shape := [1];
     RL.action_dtype := "float32";
     RL.env_reset := fun _ =>
       ({| RL.ts_observation := 0; RL.ts_reward := 0%float;
           RL.ts_action := 0; RL.step_type := RL.FIRST |}, 2);
     RL.env_step := fun a e =>
       ({| RL.ts_observation := a; RL.ts_reward := 1%float;
           RL.ts_action := a;
           RL.step_type := if e <=? 1 then RL.LAST else RL.MID |}, e - 1) |}.

(** An environment whose episodes never end, and one whose observations
    are scalars (their shape is the empty tuple). *)
Definition endless_environment : RL.Environment :=
  {| RL.env := Z;
     RL.observation := Z;
     RL.action := Z;
     RL.observation_shape := [1];
     RL.action_shape := [1];
     RL.action_dtype := "float32";
     RL.env_reset := fun e =>
       ({| RL.ts_observation := 0; RL.ts_reward := 0%float;
           RL.ts_action := 0; RL.step_type := RL.FIRST |}, e);
     RL.env_step := fun a e =>
       ({| RL.ts_observation := a; RL.ts_reward := 1%float;
           RL.ts_action := a; RL.step_type := RL.MID |}, e + 1) |}.

Definition scalar_environment : RL.Environment :=
  {| RL.env := Z;
     RL.observation := Z;
     RL.action := Z;
     RL.observation_shape := [];
     RL.action_shape := [1];
     RL.action_dtype := "float32";
     RL.env_reset := RL.env_reset (Environment := environment);
     RL.env_step := RL.env_step (Environment := environment) |}.

(** An agent that acts as the backend noise says, and a buffer that keeps
    everything; it works with any environment whose observations and
    actions are numbers. *)
Definition agent_of (environment : RL.Environment)
    (observe : @RL.observation environment -> Z)
    (act : Z -> @RL.action environment) : @RL.Agent seeding environment :=
  @RL.Build_Agent seeding environment
    unit
    (list (RL.Transition (@RL.observation environment) (@RL.action environment)))
    (fun _ _ _ _ g => (act (g mod 1000), (g * 1103515245 + 12345) mod 2 ^ 31))
    (fun _ _ => [])
    (fun td b => b ++ [td])
    (fun _ _ _ noise s => (act noise, s))
    (fun _ _ s => s).

(** An agent that acts as the backend noise says, and a buffer that keeps
    everything. *)
Definition agent : @RL.Agent seeding environment :=
  @RL.Build_Agent seeding environment
    unit
    (list (RL.Transition Z Z))
    (fun _ _ _ _ g => (g mod 1000, (g * 1103515245 + 12345) mod 2 ^ 31))
    (fun _ _ => [])
    (fun td b => b ++ [td])
    (fun _ _ _ noise s => (noise, s))
    (fun _ _ s => s).

Definition rl_cfg (seed : Z) : RL.Config :=
  {| RL.random_seed := seed; RL.num_train_episodes := 3;
     RL.init_random_episodes := 2; RL.episode_length := 2;
     RL.env_action_repeat := 1; RL.batch_size := 64;
     RL.wandb_use_wandb := false |}.

(** The state of a process at start-up: [g] is what the operating system
    gave the generators, [noise] what the backend will add. *)
Definition rl_world (g : Z) (noise : nat -> Z) : @RL.World seeding :=
  @RL.mkWorld seeding g ∅ noise 0.

(** Tensors are lists of numbers, the network adds its one parameter to
    the first component of the state, and the replay buffer lists the losses
    the iterations will show. *)
Definition torch : Transitions.Torch :=
  {| Transitions.tensor := list Z;
     Transitions.net := Z;
     Transitions.replay_buffer := list float;
     Transitions.concat := fun a b => Py.Ok (a ++ b);
     Transitions.add := fun a b =>
       if bool_decide (length a = length b) then Py.Ok (zip_with Z.add a b)
       else Py.Raise (Py.OtherError "RuntimeError");
     Transitions.forward := fun nw x => Py.Ok [nw + hd 0 x];
     Transitions.grad_iteration := fun _ _ buf nw =>
       Py.Ok (nw + 1, nth (Z.to_nat nw) buf 0%float) |}.

End Toy.

(** * Properties *)

(** ** The early stopper *)

Section EarlyStopperFacts.

Import EarlyStopping.

Variable guard_holds : float -> float -> bool.



End EarlyStopperFacts.




(** ** The checkpoint writer *)

Section CheckpointFacts.

Context {seeding : Seeding} {learner : SL.Learner}.

Import SL.



End CheckpointFacts.



(** ** Logs that halt at a signal *)

Section HaltingFacts.

Context {E : Type} (signal work : E -> Prop).

Lemma halts_app_quiet (l1 l2 : list E) :
  Forall (fun ev => ~ signal ev) l1 ->
  Log.halts_at_signal signal work l2 ->
  Log.halts_at_signal signal work (l1 ++ l2).
Proof.
  induction 1 as [|ev l1 Hev _ IH]; intros H2; [exact H2|].
  simpl. split; [intros Hs; contradiction | auto].
Qed.

Lemma halts_app_idle (l1 l2 : list E) :
  Log.halts_at_signal signal work l1 ->
  Forall (fun ev => ~ work ev) l2 ->
  Forall (fun ev => ~ signal ev) l2 ->
  Log.halts_at_signal signal work (l1 ++ l2).
Proof.
  intros H1 Hw Hs. induction l1 as [|ev l1 IH].
  - simpl. apply (halts_app_quiet l2 []) in Hs; [|exact I].
    rewrite app_nil_r in Hs. exact Hs.
  - destruct H1 as [Hev H1]. simpl. split; [|auto].
    intros Hsig. apply Forall_app. auto.
Qed.

Lemma halts_quiet (l : list E) :
  Forall (fun ev => ~ signal ev) l -> Log.halts_at_signal signal work l.
Proof.
  intros H. rewrite <- (app_nil_r l). apply halts_app_quiet; [exact H|exact I].
Qed.

(** Whatever follows a signal in a halting log is no work. *)
Lemma halts_split (tr pre post : list E) (ev : E) :
  Log.halts_at_signal signal work tr ->
  tr = pre ++ ev :: post -> signal ev ->
  Forall (fun ev' => ~ work ev') post.
Proof.
  revert tr. induction pre as [|x pre IH]; intros tr H -> Hs.
  - destruct H as [H _]. auto.
  - destruct H as [_ H]. eapply IH; eauto.
Qed.

End HaltingFacts.

(** ** Running statements *)

Lemma bind_unfold {S E A B : Type} (m : Py.M S E A) (k : A -> Py.M S E B) (s : S) :
  Py.bind m k s =
  match m s with
  | (s1, l1, Py.Ok a) => let '(s2, l2, r) := k a s1 in (s2, l1 ++ l2, r)
  | (s1, l1, Py.Raise e) => (s1, l1, Py.Raise e)
  | (s1, l1, Py.Diverge) => (s1, l1, Py.Diverge)
  end.
Proof. reflexivity. Qed.

Ltac split_conj := repeat match goal with |- _ /\ _ => split end.

(** ** The supervised loop *)

Ltac py_unfold :=
  cbv beta iota zeta delta
    [Py.bind Py.ret Py.emit Py.raise Py.modify Py.gets Py.mod_
     SL.wandb_log SL.logger_info].

Section SupervisedFacts.

Context {seeding : Seeding} {learner : SL.Learner} {early : Stopper}.

Import SL.

Lemma train_batches_run (epoch : Z) (bs : list batch) :
  forall (m : sfr * optimizer) (w : World),
    train_batches epoch bs m w = (w, grad_events epoch bs, Py.Ok (trained bs m)).
Proof.
  induction bs as [|b bs IH]; intros m w; [reflexivity|].
  cbn [train_batches]. unfold Py.bind, Py.emit, wandb_log. simpl.
  rewrite IH. reflexivity.
Qed.

Lemma omap_grad_events {B : Type} (f : event -> option B) (epoch : Z) (bs : list batch) :
  f (GradStep epoch) = None -> f (WandbLog "loss") = None ->
  omap f (grad_events epoch bs) = [].
Proof.
  intros H1 H2. induction bs as [|b bs IH]; [reflexivity|].
  unfold grad_events in *. cbn [mbind list_bind]. cbn [app].
  cbn [omap list_omap]. rewrite H1, H2. exact IH.
Qed.

Lemma maybe_checkpoint_run (run : option string) (epoch : Z) (nll : float)
    (st : LoopState) (w : World) :
  maybe_checkpoint run epoch nll st w =
  if PrimFloat.ltb nll (best_nll st) then
    match run with
    | None => (w, [], Py.Raise (Py.UnboundLocalError "run"))
    | Some d =>
        let p := Py.path_join d "best_ckpt_dict.pt" in
        if writable w p then
          (set_fs (<[p := checkpoint_state (fst (model st)) (snd (model st))]> (fs w)) w,
           [CheckpointCall epoch d; TorchSave p;
            WandbLog "best_test/"; WandbLog "best_val/"],
           Py.Ok nll)
        else (w, [CheckpointCall epoch d], Py.Raise (Py.OSError p))
    end
  else (w, [], Py.Ok (best_nll st)).
Proof.
  unfold maybe_checkpoint. destruct (PrimFloat.ltb nll (best_nll st)); [|reflexivity].
  destruct run as [d|]; [|reflexivity].
  cbv beta iota zeta delta
    [Py.bind Py.ret Py.emit checkpoint torch_save when wandb_log].
  destruct (writable w (Py.path_join d "best_ckpt_dict.pt")); reflexivity.
Qed.


Lemma evaluate_run (run : option string) (epoch : Z) (st : LoopState) (w : World) :
  let nll := val_nll (fst (model st)) in
  let pre := [WandbLog "val_loss"; Evaluate epoch nll; WandbLog "train/";
              WandbLog "val/"; WandbLog "test/"; WandbLog "epoch"] in
  evaluate run epoch st w =
  match maybe_checkpoint run epoch nll st w with
  | (w1, l1, Py.Ok b) =>
      let st1 := {| best_nll := b; model := model st;
                    early_stopper := fst (stopper_call (early_stopper st) nll) |} in
      if snd (stopper_call (early_stopper st) nll)
      then (w1, pre ++ l1 ++ [Consult epoch nll true;
              LoggerInfo "Early stopping criteria met, stopping training..."],
            Py.Ok (st1, true))
      else (w1, pre ++ l1 ++ [Consult epoch nll false], Py.Ok (st1, false))
  | (w1, l1, Py.Raise e) => (w1, pre ++ l1, Py.Raise e)
  | (w1, l1, Py.Diverge) => (w1, pre ++ l1, Py.Diverge)
  end.
Proof.
  intros nll pre. unfold evaluate. fold nll. py_unfold.
  destruct (maybe_checkpoint run epoch nll st w) as [[w1 l1] [b|e|]]; try reflexivity.
  destruct (stopper_call (early_stopper st) nll) as [es [|]]; reflexivity.
Qed.

Lemma epoch_body_run (freq : Z) (run : option string) (epoch : Z)
    (st : LoopState) (w : World) :
  let bs := train_loader epoch in
  let st1 := {| best_nll := best_nll st; model := trained bs (model st);
                early_stopper := early_stopper st |} in
  epoch_body freq run epoch st w =
  if freq =? 0 then (w, Epoch epoch :: grad_events epoch bs, Py.Raise Py.ZeroDivisionError)
  else if epoch mod freq =? 0 then
    let r := evaluate run epoch st1 w in
    (Py.final r, Epoch epoch :: grad_events epoch bs ++ Py.events r, Py.outcome r)
  else (w, Epoch epoch :: grad_events epoch bs, Py.Ok (st1, false)).
Proof.
  intros bs st1. unfold epoch_body. fold bs. py_unfold.
  rewrite train_batches_run. fold st1.
  destruct (freq =? 0).
  - simpl. rewrite app_nil_r. reflexivity.
  - simpl. destruct (epoch mod freq =? 0).
    + destruct (evaluate run epoch st1 w) as [[w2 l2] r]. simpl. reflexivity.
    + simpl. rewrite !app_nil_r. reflexivity.
Qed.


Lemma elem_of_grad_events (ev : event) (epoch : Z) (bs : list batch) :
  ev ∈ grad_events epoch bs -> ev = GradStep epoch \/ ev = WandbLog "loss".
Proof.
  unfold grad_events. intros H. apply list_elem_of_bind in H as (b & H & _).
  set_solver.
Qed.

Lemma grad_events_quiet (P : event -> Prop) (epoch : Z) (bs : list batch) :
  P (GradStep epoch) -> P (WandbLog "loss") -> Forall P (grad_events epoch bs).
Proof.
  intros H1 H2. apply Forall_forall. intros ev Hev.
  apply elem_of_grad_events in Hev as [-> | ->]; assumption.
Qed.

Ltac read_log :=
  unfold evaluated_epochs, started_epochs, evaluations, checkpoint_epochs,
    saved_paths;
  cbn [Py.events Py.outcome Py.final fst snd];
  repeat (progress (cbn [omap list_omap app fmap list_fmap];
                    rewrite ?omap_app, ?omap_grad_events by reflexivity)).

(** What one turn of the loop shows. *)
Lemma epoch_body_facts (freq : Z) (run : option string) (epoch : Z)
    (st : LoopState) (w : World) :
  freq <> 0 ->
  let r := epoch_body freq run epoch st w in
  let nll := val_nll (fst (trained (train_loader epoch) (model st))) in
  started_epochs (Py.events r) = [epoch]
  /\ evaluations (Py.events r) = (if epoch mod freq =? 0 then [(epoch, nll)] else [])
  /\ (is_Some run ->
      checkpoint_epochs (Py.events r)
      = improving_epochs (best_nll st) (evaluations (Py.events r)))
  /\ (forall st' brk, Py.outcome r = Py.Ok (st', brk) ->
      best_nll st' = best_after (best_nll st) (evaluations (Py.events r)))
  /\ Log.halts_at_signal is_signal is_work (Py.events r)
  /\ (forall st', Py.outcome r = Py.Ok (st', false) ->
      Forall (fun ev => ~ is_signal ev) (Py.events r))
  /\ (forall e' x s, Consult e' x s ∈ Py.events r ->
      e' = epoch /\ x = nll /\ epoch mod freq = 0
      /\ s = snd (stopper_call (early_stopper st) nll))
  /\ (forall d, run = Some d ->
      Forall (fun p => p = Py.path_join d "best_ckpt_dict.pt")
        (saved_paths (Py.events r)))
  /\ Py.outcome r <> Py.Diverge
  /\ (forall st', Py.outcome r = Py.Ok (st', true) ->
      Consult epoch nll true ∈ Py.events r)
  /\ writable (Py.final r) = writable w
  /\ (forall d, run = Some d ->
      writable w (Py.path_join d "best_ckpt_dict.pt") = true ->
      saved_paths (Py.events r)
      = (fun _ => Py.path_join d "best_ckpt_dict.pt") <$> checkpoint_epochs (Py.events r)).
Proof.
  intros Hf r nll. subst r. rewrite epoch_body_run.
  apply Z.eqb_neq in Hf. rewrite Hf.
  assert (Hg : Forall (fun ev => ~ is_signal ev)
                 (Epoch epoch :: grad_events epoch (train_loader epoch))).
  { constructor; [simpl; tauto|]. apply grad_events_quiet; simpl; tauto. }
  assert (Hin : forall e' x s,
             Consult e' x s ∈ Epoch epoch :: grad_events epoch (train_loader epoch) -> False).
  { intros e' x s H. apply elem_of_cons in H as [H|H]; [discriminate|].
    apply elem_of_grad_events in H as [H|H]; discriminate. }
  destruct (epoch mod freq =? 0) eqn:Hm.
  2:{ split_conj.
      - read_log. reflexivity.
      - read_log. reflexivity.
      - intros _. read_log. reflexivity.
      - intros st' brk H. simpl in H. injection H as <- _. read_log. reflexivity.
      - apply halts_quiet. exact Hg.
      - intros _ _. exact Hg.
      - intros e' x s H. exfalso. eapply Hin. exact H.
      - intros d _. read_log. constructor.
      - discriminate.
      - discriminate.
      - reflexivity.
      - intros d _ _. read_log. reflexivity. }
  apply Z.eqb_eq in Hm.
  set (st1 := {| best_nll := best_nll st;
                 model := trained (train_loader epoch) (model st);
                 early_stopper := early_stopper st |}).
  rewrite evaluate_run, maybe_checkpoint_run. cbn [model best_nll early_stopper st1 fst].
  fold nll.
  destruct (PrimFloat.ltb nll (best_nll st)) eqn:Hlt;
    [destruct run as [d|];
       [destruct (writable w (Py.path_join d "best_ckpt_dict.pt")) eqn:Hwr|]|];
    cbn iota beta;
    try destruct (snd (stopper_call (early_stopper st) nll)) eqn:Hstop;
    (split_conj;
     [ read_log; reflexivity
     | read_log; reflexivity
     | intros Hrun; try (destruct Hrun; discriminate); read_log; cbn [improving_epochs best_after]; rewrite ?Hlt; reflexivity
     | intros st' brk H; cbn [Py.outcome snd] in H; try discriminate;
       injection H as <- _; read_log; cbn [improving_epochs best_after]; rewrite ?Hlt; reflexivity
     | cbn [Py.events fst snd]; rewrite app_comm_cons;
       apply halts_app_quiet; [exact Hg|]; simpl;
       intuition (repeat constructor; simpl; tauto)
     | intros st' H; cbn [Py.outcome snd] in H;
       first [ discriminate
             | cbn [Py.events fst snd]; rewrite app_comm_cons;
               apply Forall_app; split; [exact Hg|]; repeat constructor; simpl; tauto ]
     | intros e' x s H; cbn [Py.events fst snd] in H; rewrite app_comm_cons in H;
       apply elem_of_app in H as [H|H]; [exfalso; eapply Hin; exact H|];
       set_solver
     | intros d' Hd; first [ discriminate
                           | try (injection Hd as <-); read_log; repeat constructor ]
     | cbn [Py.outcome snd]; discriminate
     | intros st' H; cbn [Py.outcome snd] in H;
       first [ discriminate
             | cbn [Py.events fst snd]; rewrite app_comm_cons;
               apply elem_of_app; right; set_solver ]
     | reflexivity
     | intros d' Hd Hw;
       first [ discriminate
             | injection Hd as <-; rewrite Hw in Hwr; discriminate
             | injection Hd as <-; read_log; reflexivity
             | read_log; reflexivity ] ]).
Qed.


Lemma for_epochs_cons (freq : Z) (run : option string) (epoch : Z)
    (rest : list Z) (st : LoopState) (w : World) :
  for_epochs freq run (epoch :: rest) st w =
  match epoch_body freq run epoch st w with
  | (w1, l1, Py.Ok (st1, true)) => (w1, l1 ++ [], Py.Ok st1)
  | (w1, l1, Py.Ok (st1, false)) =>
      let r := for_epochs freq run rest st1 w1 in
      (Py.final r, l1 ++ Py.events r, Py.outcome r)
  | (w1, l1, Py.Raise e) => (w1, l1, Py.Raise e)
  | (w1, l1, Py.Diverge) => (w1, l1, Py.Diverge)
  end.
Proof.
  cbn [for_epochs]. unfold Py.bind.
  destruct (epoch_body freq run epoch st w) as [[w1 l1] [[st1 [|]]|e|]]; try reflexivity.
  cbn [fst snd]. destruct (for_epochs freq run rest st1 w1) as [[w2 l2] r2].
  reflexivity.
Qed.

Lemma improving_epochs_app (l1 l2 : list (Z * float)) :
  forall b, improving_epochs b (l1 ++ l2)
            = improving_epochs b l1 ++ improving_epochs (best_after b l1) l2.
Proof.
  induction l1 as [|[e x] l1 IH]; intros b; [reflexivity|].
  simpl. destruct (PrimFloat.ltb x b); simpl; rewrite IH; reflexivity.
Qed.

Lemma best_after_app (l1 l2 : list (Z * float)) :
  forall b, best_after b (l1 ++ l2) = best_after (best_after b l1) l2.
Proof.
  induction l1 as [|[e x] l1 IH]; intros b; [reflexivity|]. simpl. apply IH.
Qed.

(** What a run of the loop shows, whatever ends it. *)
Lemma for_epochs_facts (freq : Z) (run : option string) (epochs : list Z) :
  freq <> 0 ->
  forall (st : LoopState) (w : World),
  let r := for_epochs freq run epochs st w in
  started_epochs (Py.events r) `prefix_of` epochs
  /\ evaluated_epochs (Py.events r)
     = filter (fun e => e mod freq = 0) (started_epochs (Py.events r))
  /\ (is_Some run ->
      checkpoint_epochs (Py.events r)
      = improving_epochs (best_nll st) (evaluations (Py.events r)))
  /\ (forall st', Py.outcome r = Py.Ok st' ->
      best_nll st' = best_after (best_nll st) (evaluations (Py.events r)))
  /\ Log.halts_at_signal is_signal is_work (Py.events r)
  /\ (forall e x s, Consult e x s ∈ Py.events r ->
      (e, x) ∈ evaluations (Py.events r) /\ e mod freq = 0
      /\ exists es, s = snd (stopper_call es x))
  /\ (forall d, run = Some d ->
      Forall (fun p => p = Py.path_join d "best_ckpt_dict.pt")
        (saved_paths (Py.events r)))
  /\ (forall st', Py.outcome r = Py.Ok st' ->
      Forall (fun ev => ~ is_signal ev) (Py.events r) ->
      started_epochs (Py.events r) = epochs)
  /\ writable (Py.final r) = writable w
  /\ (forall d, run = Some d ->
      writable w (Py.path_join d "best_ckpt_dict.pt") = true ->
      saved_paths (Py.events r)
      = (fun _ => Py.path_join d "best_ckpt_dict.pt") <$> checkpoint_epochs (Py.events r)).
Proof.
  intros Hf. induction epochs as [|epoch rest IH]; intros st w r.
  { subst r. cbn. split_conj; try done.
    - intros st' [= <-]. reflexivity.
    - intros e x s H. apply elem_of_nil in H. contradiction. }
  subst r. rewrite for_epochs_cons.
  pose proof (epoch_body_facts freq run epoch st w Hf)
    as (B1 & B2 & B3 & B4 & B5 & B6 & B7 & B8 & B9 & B10 & B11 & B12).
  cbv zeta in *.
  set (nll := val_nll (fst (trained (train_loader epoch) (model st)))) in *.
  assert (Bev : evaluated_epochs (Py.events (epoch_body freq run epoch st w))
                = filter (fun e => e mod freq = 0) [epoch]).
  { unfold evaluated_epochs. rewrite B2.
    destruct (Z.eqb_spec (epoch mod freq) 0) as [E|E].
    - rewrite filter_cons_True by exact E. reflexivity.
    - rewrite filter_cons_False by exact E. reflexivity. }
  assert (Bin : forall e x s,
             Consult e x s ∈ Py.events (epoch_body freq run epoch st w) ->
             (e, x) ∈ evaluations (Py.events (epoch_body freq run epoch st w))
             /\ e mod freq = 0 /\ exists es, s = snd (stopper_call es x)).
  { intros e x s H. destruct (B7 e x s H) as (-> & -> & Hm & Hs).
    rewrite B2. apply Z.eqb_eq in Hm as Hm'. rewrite Hm'.
    split_conj; [set_solver|exact Hm|eauto]. }
  destruct (epoch_body freq run epoch st w) as [[w1 l1] [[st1 [|]]|ex|]];
    cbn [Py.events Py.outcome Py.final fst snd] in *.
  - rewrite app_nil_r. split_conj; try assumption.
    + rewrite B1. apply prefix_cons, prefix_nil.
    + rewrite B1. exact Bev.
    + intros st' H. injection H as <-. eauto.
    + intros st' _ Hq. exfalso.
      rewrite Forall_forall in Hq. apply (Hq _ (B10 st1 eq_refl)). exact I.
  - specialize (IH st1 w1). cbv zeta in IH.
    destruct IH as (I1 & I2 & I3 & I4 & I5 & I6 & I7 & I8 & I9 & I10).
    destruct (for_epochs freq run rest st1 w1) as [[w2 l2] r2].
    cbn [Py.events Py.outcome Py.final fst snd] in *.
    pose proof (B4 st1 false eq_refl) as Hb.
    split_conj.
    + unfold started_epochs in *. rewrite omap_app, B1.
      apply prefix_cons. exact I1.
    + unfold evaluated_epochs, evaluations, started_epochs in *.
      rewrite !omap_app, fmap_app, filter_app, B1, Bev, I2. reflexivity.
    + intros Hr. unfold checkpoint_epochs, evaluations in *.
      rewrite !omap_app, improving_epochs_app, B3, I3, Hb by exact Hr.
      reflexivity.
    + intros st' H. unfold evaluations in *.
      rewrite omap_app, best_after_app, <- Hb. auto.
    + apply halts_app_quiet; eauto.
    + intros e x s H. unfold evaluations in *. rewrite omap_app.
      apply elem_of_app in H as [H|H].
      * destruct (Bin e x s H) as (H1 & H2 & H3). split_conj; [set_solver|done..].
      * destruct (I6 e x s H) as (H1 & H2 & H3). split_conj; [set_solver|done..].
    + intros d Hd. unfold saved_paths in *. rewrite omap_app.
      apply Forall_app. eauto.
    + intros st' H Hq. apply Forall_app in Hq as [_ Hq].
      unfold started_epochs in *. rewrite omap_app, B1.
      simpl. f_equal. eauto.
    + rewrite I9. exact B11.
    + intros d Hd Hw. unfold saved_paths, checkpoint_epochs in *.
      rewrite !omap_app, fmap_app, (B12 d Hd Hw), (I10 d Hd); [reflexivity|].
      rewrite B11. exact Hw.
  - split_conj; try assumption.
    + rewrite B1. apply prefix_cons, prefix_nil.
    + rewrite B1. exact Bev.
    + discriminate.
    + discriminate.
  - congruence.
Qed.


Lemma seed_block_run (cfg : TrainConfig) (w : World) :
  let r := seed_block cfg w in
  Py.events r = [] /\ writable (Py.final r) = writable w
  /\ wandb_dir (Py.final r) = wandb_dir w /\ fs (Py.final r) = fs w.
Proof.
  unfold seed_block, Py.try_except, call_set_seed, random_randint, Py.bind.
  destruct (set_seed_everywhere (random_seed cfg) (generators w)) as [g [[]|e|]];
    simpl; auto.
  destruct (random_sample g) as [raw g1]. simpl.
  destruct (set_seed_everywhere (Py.randint 0 10000 raw) g1) as [g2 r2]. simpl. auto.
Qed.

Lemma train_run (cfg : TrainConfig) (m : sfr * optimizer) (w : World) :
  let r := train cfg m w in
  ((Py.events r = wandb_events cfg \/ Py.events r = [])
   /\ forall v, Py.outcome r <> Py.Ok v)
  \/ (logging_epoch_freq cfg <> 0
      /\ exists (w1 : World) (es : stopper),
          writable w1 = writable w /\ wandb_dir w1 = wandb_dir w /\
          let run := if wandb_use_wandb cfg then Some (wandb_dir w) else None in
          let lp := train_loop cfg run m es w1 in
          Py.events r
          = wandb_events cfg ++ Py.events lp
            ++ match Py.outcome lp with
               | Py.Ok _ => [LoggerInfo "Finished training"]
               | _ => []
               end
          /\ Py.outcome r
             = match Py.outcome lp with
               | Py.Ok st => Py.Ok (fst (model st))
               | Py.Raise e => Py.Raise e
               | Py.Diverge => Py.Diverge
               end).
Proof.
  intros r. subst r. unfold train, train_after_seed.
  pose proof (seed_block_run cfg w) as (S1 & S2 & S3 & _). cbv zeta in *.
  rewrite bind_unfold.
  destruct (seed_block cfg w) as [[w0 l0] [[]|e|]];
    cbn [Py.events Py.final fst snd] in *; subst l0;
    [|left; split; [right; reflexivity|discriminate]..].
  unfold wandb_events, init_wandb, Py.int_truediv.
  destruct (Z.eqb_spec (logging_epoch_freq cfg) 0) as [Hz|Hnz].
  - left. py_unfold. cbv beta iota zeta delta [set_backend_flags Py.modify].
    destruct (wandb_use_wandb cfg); (split; [left; reflexivity|discriminate]).
  - right. split; [exact Hnz|].
    set (w1 := set_cudnn (Py.setattr "benchmark" false
                            (Py.setattr "determinstic" true (cudnn w0))) w0).
    exists w1, (stopper_new (Z.quot (early_stop_patience cfg) (logging_epoch_freq cfg))
                  (early_stop_min_prior_precision cfg)).
    split; [exact S2|]. split; [exact S3|].
    cbv zeta. py_unfold. cbv beta iota zeta delta [set_backend_flags Py.modify].
    fold w1. replace (wandb_dir w) with (wandb_dir w1) by exact S3.
    destruct (wandb_use_wandb cfg); cbn [app];
      match goal with
      | |- context [train_loop ?c ?run ?m ?es ?w] =>
          destruct (train_loop c run m es w) as [[w2 l2] [st|e|]]
      end; cbn [Py.events Py.outcome fst snd app]; rewrite ?app_nil_r; auto.
Qed.

Lemma quiet_of_silent (tr : list event) :
  (forall e x s, Consult e x s ∈ tr -> s = false) ->
  Forall (fun ev => ~ is_signal ev) tr.
Proof.
  intros H. apply Forall_forall. intros ev Hev Hs.
  destruct ev as [| | | | | | | |e x [|]]; try exact Hs.
  specialize (H e x true Hev). discriminate.
Qed.

End SupervisedFacts.





(** ** The transition model *)

Section TransitionFacts.

Context {torch : Transitions.Torch} {early : Stopper}.

Import Transitions.

Ltac mlp_unfold :=
  cbv beta iota zeta delta
    [Py.bind Py.ret Py.emit Py.raise Py.modify Py.gets lift].

Lemma predict_fn_run (state action : tensor) (w : World) :
  predict_fn state action w =
  match concat state action with
  | Py.Ok sa =>
      match forward (network w) sa with
      | Py.Ok d =>
          match add state d with
          | Py.Ok mu => (w, [], Py.Ok {| state_mean := mu; state_var := VInt 0;
                                         noise_var := VInt 0 |})
          | Py.Raise e => (w, [], Py.Raise e)
          | Py.Diverge => (w, [], Py.Diverge)
          end
      | Py.Raise e => (w, [], Py.Raise e)
      | Py.Diverge => (w, [], Py.Diverge)
      end
  | Py.Raise e => (w, [], Py.Raise e)
  | Py.Diverge => (w, [], Py.Diverge)
  end.
Proof.
  unfold predict_fn. mlp_unfold.
  destruct (concat state action) as [sa|e|]; try reflexivity.
  destruct (forward (network w) sa) as [d|e|]; try reflexivity.
  destruct (add state d) as [mu|e|]; reflexivity.
Qed.

(** What one iteration of [train_fn] shows. *)
Lemma iteration_facts (lr : float) (bs : Z) (name : option string)
    (buf : replay_buffer) (i : Z) (w : World) :
  let r := iteration lr bs name buf i w in
  iterations (Py.events r) = [i]
  /\ Log.halts_at_signal is_signal is_work (Py.events r)
  /\ (Py.outcome r = Py.Ok false -> Forall (fun ev => ~ is_signal ev) (Py.events r))
  /\ (forall i' x s, Consult i' x s ∈ Py.events r ->
      i' = i /\ OptimizerStep i ∈ Py.events r).
Proof.
  unfold iteration. mlp_unfold.
  destruct (grad_iteration lr bs buf (network w)) as [[nw loss]|e|];
    cbn [fst snd];
    [| split_conj; cbn; try tauto; try discriminate;
       try (intros; constructor; [tauto|constructor]);
       intros i' x s H; set_solver..].
  destruct name as [key|]; destruct (early_stopper w) as [s|];
    try destruct (stopper_call s loss) as [s1 [|]];
    cbn [Py.events Py.outcome fst snd app];
    (split_conj;
     [ reflexivity
     | simpl; intuition (repeat constructor; simpl; tauto)
     | intros H; first [discriminate | repeat constructor; simpl; tauto]
     | intros i' x sg H; split; [set_solver|set_solver] ]).
Qed.

Lemma for_iterations_cons (body : Z -> Py.M World event bool) (i : Z)
    (rest : list Z) (w : World) :
  for_iterations body (i :: rest) w =
  match body i w with
  | (w1, l1, Py.Ok true) => (w1, l1 ++ [], Py.Ok tt)
  | (w1, l1, Py.Ok false) =>
      let r := for_iterations body rest w1 in
      (Py.final r, l1 ++ Py.events r, Py.outcome r)
  | (w1, l1, Py.Raise e) => (w1, l1, Py.Raise e)
  | (w1, l1, Py.Diverge) => (w1, l1, Py.Diverge)
  end.
Proof.
  cbn [for_iterations]. rewrite bind_unfold.
  destruct (body i w) as [[w1 l1] [[|]|e|]]; try reflexivity.
  destruct (for_iterations body rest w1) as [[w2 l2] r2]. reflexivity.
Qed.

Lemma for_iterations_facts (lr : float) (bs : Z) (name : option string)
    (buf : replay_buffer) (todo : list Z) :
  forall w : World,
  let r := for_iterations (iteration lr bs name buf) todo w in
  iterations (Py.events r) `prefix_of` todo
  /\ Log.halts_at_signal is_signal is_work (Py.events r)
  /\ (forall i x s, Consult i x s ∈ Py.events r -> OptimizerStep i ∈ Py.events r).
Proof.
  induction todo as [|i rest IH]; intros w r.
  { subst r. cbn. split_conj; [done|exact I|]. intros i x s H. set_solver. }
  subst r. rewrite for_iterations_cons.
  pose proof (iteration_facts lr bs name buf i w) as (B1 & B2 & B3 & B4).
  cbv zeta in *.
  destruct (iteration lr bs name buf i w) as [[w1 l1] [[|]|e|]];
    cbn [Py.events Py.outcome Py.final fst snd] in *;
    rewrite ?app_nil_r;
    try (split_conj; [rewrite B1; apply prefix_cons, prefix_nil | exact B2
                     | intros i' x s H; apply (B4 i' x s) in H as [-> H]; exact H]).
  specialize (IH w1). cbv zeta in IH. destruct IH as (I1 & I2 & I3).
  destruct (for_iterations (iteration lr bs name buf) rest w1) as [[w2 l2] r2].
  cbn [Py.events Py.outcome Py.final fst snd] in *.
  split_conj.
  - unfold iterations in *. rewrite omap_app, B1. apply prefix_cons. exact I1.
  - apply halts_app_quiet; auto.
  - intros i' x s H. apply elem_of_app in H as [H|H].
    + apply (B4 i' x s) in H as [-> H]. set_solver.
    + apply I3 in H. set_solver.
Qed.

Lemma train_fn_facts (lr : float) (n bs : Z) (name : option string)
    (buf : replay_buffer) (w : World) :
  let r := train_fn lr n bs name buf w in
  (length (iterations (Py.events r)) <= Z.to_nat n)%nat
  /\ Log.halts_at_signal is_signal is_work (Py.events r)
  /\ (forall i x s, Consult i x s ∈ Py.events r -> OptimizerStep i ∈ Py.events r).
Proof.
  unfold train_fn. mlp_unfold.
  destruct (early_stopper w) as [s|].
  2:{ cbn. split_conj; [lia|exact I|]. intros i x sg H. set_solver. }
  set (w1 := {| network := network w; early_stopper := Some (stopper_reset s) |}).
  pose proof (for_iterations_facts lr bs name buf (Py.range n) w1) as (I1 & I2 & I3).
  cbv zeta in *.
  destruct (for_iterations (iteration lr bs name buf) (Py.range n) w1) as [[w2 l2] r2].
  cbn [Py.events Py.outcome Py.final fst snd app] in *.
  split_conj; try assumption.
  apply prefix_length in I1. unfold Py.range in I1.
  rewrite length_fmap, length_seq in I1. exact I1.
Qed.

End TransitionFacts.

(** C4: in [train] of the supervised script the early stopper is
    consulted only at evaluation points (epochs that are multiples of the
    logging frequency, with the nll just computed there), and nothing but
    messages of the logger follows a stop signal: no further epoch, gradient
    step, evaluation, checkpoint or consultation.  In [train_fn] of the
    transition model the stopper is consulted after the optimiser step of
    an iteration, nothing but messages of the logger follows a stop signal,
    and at most [num_iterations] iterations run. *)
Theorem early_stop_ends_both_loops
    {seeding : Seeding} {learner : SL.Learner} {torch : Transitions.Torch}
    {early : Stopper}
    (cfg : SL.TrainConfig) (m : SL.sfr * SL.optimizer) (w : SL.World)
    (learning_rate : float) (num_iterations batch_size : Z)
    (wandb_loss_name : option string) (buffer : Transitions.replay_buffer)
    (tw : Transitions.World) :
  let r := SL.train cfg m w in
  let t := Transitions.train_fn learning_rate num_iterations batch_size
             wandb_loss_name buffer tw in
  (forall e x s, SL.Consult e x s ∈ Py.events r ->
     (e, x) ∈ SL.evaluations (Py.events r) /\ e mod SL.logging_epoch_freq cfg = 0)
  /\ (forall pre post e x, Py.events r = pre ++ SL.Consult e x true :: post ->
        Forall (fun ev => ~ SL.is_work ev) post)
  /\ (forall i x s, Transitions.Consult i x s ∈ Py.events t ->
        Transitions.OptimizerStep i ∈ Py.events t)
  /\ (forall pre post i x, Py.events t = pre ++ Transitions.Consult i x true :: post ->
        Forall (fun ev => ~ Transitions.is_work ev) post)
  /\ (length (Transitions.iterations (Py.events t)) <= Z.to_nat num_iterations)%nat.
Proof.
  intros r t.
  pose proof (train_fn_facts learning_rate num_iterations batch_size
                wandb_loss_name buffer tw) as (T1 & T2 & T3).
  cbv zeta in *. fold t in T1, T2, T3.
  assert (Hsl :
    (forall e x s, SL.Consult e x s ∈ Py.events r ->
       (e, x) ∈ SL.evaluations (Py.events r) /\ e mod SL.logging_epoch_freq cfg = 0)
    /\ Log.halts_at_signal SL.is_signal SL.is_work (Py.events r)).
  { destruct (train_run cfg m w) as [[H _]|(Hf & w1 & es & _ & _ & H & _)];
      fold r in H.
    - assert (Hq : Forall (fun ev => ~ SL.is_signal ev) (Py.events r)).
      { destruct H as [H|H]; rewrite H; [|constructor].
        unfold SL.wandb_events. destruct (SL.wandb_use_wandb cfg);
          repeat constructor; simpl; tauto. }
      split; [|apply halts_quiet; exact Hq].
      intros e x s Hin. exfalso.
      destruct H as [H|H]; rewrite H in Hin; [|set_solver].
      unfold SL.wandb_events in Hin. destruct (SL.wandb_use_wandb cfg); set_solver.
    - cbv zeta in H.
      set (run := if SL.wandb_use_wandb cfg then Some (SL.wandb_dir w) else None) in *.
      pose proof (for_epochs_facts (SL.logging_epoch_freq cfg) run
                    (Py.range (SL.n_epochs cfg)) Hf
                    {| SL.best_nll := infinity; SL.model := m; SL.early_stopper := es |} w1)
        as (_ & _ & _ & _ & I5 & I6 & _).
      cbv zeta in *. fold (SL.train_loop cfg run m es w1) in *.
      set (lp := SL.train_loop cfg run m es w1) in *.
      assert (Hw : Forall (fun ev => ~ SL.is_signal ev) (SL.wandb_events cfg)).
      { unfold SL.wandb_events. destruct (SL.wandb_use_wandb cfg);
          repeat constructor; simpl; tauto. }
      split.
      + intros e x s Hin. rewrite H in Hin.
        assert (Hlp : SL.Consult e x s ∈ Py.events lp).
        { apply elem_of_app in Hin as [Hin|Hin].
          - unfold SL.wandb_events in Hin. destruct (SL.wandb_use_wandb cfg); set_solver.
          - apply elem_of_app in Hin as [Hin|Hin]; [exact Hin|].
            destruct (Py.outcome lp); set_solver. }
        destruct (I6 e x s Hlp) as (H1 & H2 & _). split; [|exact H2].
        rewrite H. unfold SL.evaluations in *. rewrite !omap_app. set_solver.
      + rewrite H. apply halts_app_quiet; [exact Hw|].
        apply halts_app_idle; [exact I5|..];
          destruct (Py.outcome lp); repeat constructor; simpl; tauto. }
  destruct Hsl as (S1 & S2).
  split_conj.
  - exact S1.
  - intros pre post e x Heq.
    exact (halts_split SL.is_signal SL.is_work _ pre post _ S2 Heq I).
  - exact T3.
  - intros pre post i x Heq.
    exact (halts_split Transitions.is_signal Transitions.is_work _ pre post _ T2 Heq I).
  - exact T1.
Qed.

(** C10: whenever the tensor operations succeed, [predict_fn] returns
    the state plus the network's output on the concatenated state and
    action as [state_mean], and the integer 0 as [state_var] and as
    [noise_var]; it changes nothing and logs nothing; and whatever
    prediction it returns has both variances equal to 0. *)
Theorem predict_fn_has_no_uncertainty
    {torch : Transitions.Torch} {early : Stopper}
    (state action sa d mu : Transitions.tensor) (w : Transitions.World)
    (Hconcat : Transitions.concat state action = Py.Ok sa)
    (Hforward : Transitions.forward (Transitions.network w) sa = Py.Ok d)
    (Hadd : Transitions.add state d = Py.Ok mu) :
  Transitions.predict_fn state action w
  = (w, [], Py.Ok {| Transitions.state_mean := mu;
                     Transitions.state_var := Transitions.VInt 0;
                     Transitions.noise_var := Transitions.VInt 0 |})
  /\ (forall (state' action' : Transitions.tensor) (w' : Transitions.World)
        (p : Transitions.StatePrediction Transitions.tensor),
        Py.outcome (Transitions.predict_fn state' action' w') = Py.Ok p ->
        Transitions.state_var p = Transitions.VInt 0
        /\ Transitions.noise_var p = Transitions.VInt 0
        /\ exists sa' d',
             Transitions.concat state' action' = Py.Ok sa'
             /\ Transitions.forward (Transitions.network w') sa' = Py.Ok d'
             /\ Transitions.add state' d' = Py.Ok (Transitions.state_mean p)).
Proof.
  split.
  - rewrite predict_fn_run, Hconcat, Hforward, Hadd. reflexivity.
  - intros state' action' w' p. rewrite predict_fn_run.
    destruct (Transitions.concat state' action') as [sa'|e|]; try discriminate.
    destruct (Transitions.forward (Transitions.network w') sa') as [d'|e|] eqn:Hf;
      try discriminate.
    destruct (Transitions.add state' d') as [mu'|e|] eqn:Ha; try discriminate.
    cbn. intros [= <-]. cbn. eauto 7.
Qed.

Lemma predict_fn_has_no_uncertainty_witness :
  Py.outcome (@Transitions.predict_fn Toy.torch Toy.silent [1] [3]
                (@Transitions.mkWorld Toy.torch Toy.silent 10 None))
  = Py.Ok {| Transitions.state_mean := [12];
             Transitions.state_var := Transitions.VInt 0;
             Transitions.noise_var := Transitions.VInt 0 |}.
Proof.
  rewrite (proj1 (@predict_fn_has_no_uncertainty Toy.torch Toy.silent
                    [1] [3] [1; 3] [11] [12]
                    (@Transitions.mkWorld Toy.torch Toy.silent 10 None)
                    eq_refl eq_refl eq_refl)).
  reflexivity.
Defined.

(** ** The callable bundle *)

(** C9 (amended): the [TransitionModel] named tuple that
    [src/models/transitions/base.py] declares has exactly the two fields
    predict and train; the bundle [init] of the MLP transition model builds
    binds exactly predict, train and update, which the three-field
    declaration accepts, in that order, and which the two-field declaration
    rejects with a [TypeError]. *)
Theorem transition_model_fields
    {torch : Transitions.Torch} {early : Stopper}
    (learning_rate : float) (num_iterations batch_size : Z)
    (wandb_loss_name : option string) :
  let kwargs := Transitions.init_kwargs learning_rate num_iterations batch_size
                  wandb_loss_name in
  NamedTuple.fields Transitions.TransitionModel = ["predict"; "train"]
  /\ NamedTuple.keys kwargs = ["predict"; "train"; "update"]
  /\ Transitions.init Transitions.RLTransitionModel learning_rate num_iterations
       batch_size wandb_loss_name = Py.Ok kwargs
  /\ Transitions.init Transitions.TransitionModel learning_rate num_iterations
       batch_size wandb_loss_name
     = Py.Raise (Py.TypeError "unexpected keyword argument").
Proof.
  intros kwargs. split_conj; reflexivity.
Qed.

(** C9, as stated, fails: the declared record has no field update. *)
Lemma transition_model_has_no_update_field :
  ~ (NamedTuple.fields Transitions.TransitionModel = ["predict"; "train"; "update"]).
Proof. discriminate. Qed.

(** ** Seeding *)

Lemma randint_range (lo hi raw : Z) :
  lo <= hi -> lo <= Py.randint lo hi raw <= hi.
Proof.
  intros H. unfold Py.randint.
  pose proof (Z.mod_pos_bound raw (hi - lo + 1)). lia.
Qed.

(** C8 (amended): in both entry points, when
    [set_seed_everywhere(cfg.random_seed)] raises, whatever the exception,
    it is caught, a fresh seed of 0..10000 is drawn, and the script goes on
    exactly as the call of [set_seed_everywhere] with the fresh seed followed
    by the rest of [train]: when that second call succeeds the run
    continues, and when it raises, its exception reaches the caller. *)
Theorem seed_fallback_draws_fresh_seed
    {seeding : Seeding} {learner : SL.Learner} {early : Stopper}
    {environment : RL.Environment} {the_agent : RL.Agent}
    (sl_cfg : SL.TrainConfig) (m : SL.sfr * SL.optimizer) (sw : SL.World)
    (fuel : nat) (rl_cfg : RL.Config) (env0 : RL.env) (agent0 : RL.agent)
    (rw : RL.World) (g g' : rng) (e e' : Py.exn)
    (Hsl : set_seed_everywhere (SL.random_seed sl_cfg) (SL.generators sw)
           = (g, Py.Raise e))
    (Hrl : set_seed_everywhere (RL.random_seed rl_cfg) (RL.generators rw)
           = (g', Py.Raise e')) :
  let fresh := Py.randint 0 10000 (fst (random_sample g)) in
  let fresh' := Py.randint 0 10000 (fst (random_sample g')) in
  (0 <= fresh <= 10000
   /\ SL.train sl_cfg m sw
      = (SL.call_set_seed fresh ;;; SL.train_after_seed sl_cfg m)
          (SL.set_generators (snd (random_sample g)) sw)
   /\ (forall e2, snd (set_seed_everywhere fresh (snd (random_sample g))) = Py.Raise e2 ->
       Py.outcome (SL.train sl_cfg m sw) = Py.Raise e2))
  /\ (0 <= fresh' <= 10000
      /\ RL.train fuel rl_cfg env0 agent0 rw
         = (RL.call_set_seed fresh' ;;; RL.train_after_seed fuel rl_cfg env0 agent0)
             (RL.set_generators (snd (random_sample g')) rw)
      /\ (forall e2, snd (set_seed_everywhere fresh' (snd (random_sample g'))) = Py.Raise e2 ->
          Py.outcome (RL.train fuel rl_cfg env0 agent0 rw) = Py.Raise e2)).
Proof.
  intros fresh fresh'.
  assert (Hsl_eq : SL.train sl_cfg m sw
      = (SL.call_set_seed fresh ;;; SL.train_after_seed sl_cfg m)
          (SL.set_generators (snd (random_sample g)) sw)).
  { unfold SL.train, SL.seed_block. rewrite !bind_unfold.
    unfold Py.try_except, SL.call_set_seed at 1. rewrite Hsl. cbn [fst snd].
    rewrite bind_unfold. unfold SL.random_randint. cbn [SL.generators SL.set_generators].
    subst fresh. destruct (random_sample g) as [raw g1]. cbn [fst snd].
    unfold SL.call_set_seed. cbn [SL.generators SL.set_generators].
    destruct (set_seed_everywhere (Py.randint 0 10000 raw) g1) as [g2 [[]|e2|]];
      cbn [app]; reflexivity. }
  assert (Hrl_eq : RL.train fuel rl_cfg env0 agent0 rw
      = (RL.call_set_seed fresh' ;;; RL.train_after_seed fuel rl_cfg env0 agent0)
          (RL.set_generators (snd (random_sample g')) rw)).
  { unfold RL.train, RL.seed_block. rewrite !bind_unfold.
    unfold Py.try_except, RL.call_set_seed at 1. rewrite Hrl. cbn [fst snd].
    rewrite bind_unfold. unfold RL.random_randint. cbn [RL.generators RL.set_generators].
    subst fresh'. destruct (random_sample g') as [raw g1]. cbn [fst snd].
    unfold RL.call_set_seed. cbn [RL.generators RL.set_generators].
    destruct (set_seed_everywhere (Py.randint 0 10000 raw) g1) as [g2 [[]|e2|]];
      cbn [app]; reflexivity. }
  split; (split; [apply randint_range; lia|]); (split; [assumption|]).
  - intros e2 H2. rewrite Hsl_eq, bind_unfold. unfold SL.call_set_seed.
    cbn [SL.generators SL.set_generators].
    destruct (set_seed_everywhere fresh (snd (random_sample g))) as [g2 r2].
    cbn in H2. subst r2. reflexivity.
  - intros e2 H2. rewrite Hrl_eq, bind_unfold. unfold RL.call_set_seed.
    cbn [RL.generators RL.set_generators].
    destruct (set_seed_everywhere fresh' (snd (random_sample g'))) as [g2 r2].
    cbn in H2. subst r2. reflexivity.
Qed.

Lemma seed_fallback_draws_fresh_seed_witness :
  0 <= Py.randint 0 10000 (fst (@random_sample Toy.seeding 7)) <= 10000
  /\ Py.outcome (@SL.train Toy.seeding Toy.learner Toy.silent Toy.bad_cfg
                   Toy.model0 Toy.world)
     = Py.outcome ((@SL.call_set_seed Toy.seeding Toy.learner 7 ;;;
                    @SL.train_after_seed Toy.seeding Toy.learner Toy.silent
                      Toy.bad_cfg Toy.model0)
                     (@SL.set_generators Toy.seeding Toy.learner
                        (snd (@random_sample Toy.seeding 7)) Toy.world)).
Proof.
  pose proof (@seed_fallback_draws_fresh_seed Toy.seeding Toy.learner Toy.silent
                Toy.environment Toy.agent Toy.bad_cfg Toy.model0 Toy.world
                10%nat (Toy.rl_cfg (-1)) 0 tt (Toy.rl_world 1 (fun _ => 0))
                7 1 (Py.OtherError "ValueError") (Py.OtherError "ValueError")
                eq_refl eq_refl) as [(H1 & H2 & _) _].
  split; [exact H1|]. rewrite H2. reflexivity.
Defined.

(** C8, as stated, fails: with a seeding helper that raises whatever the
    seed, the first call raises, and so does the unguarded second call,
    whose exception ends [train]. *)
Lemma seed_error_reaches_caller :
  snd (@set_seed_everywhere Toy.broken_seeding (SL.random_seed Toy.cfg) 7)
  = Py.Raise (Py.OtherError "RuntimeError")
  /\ Py.outcome (@SL.train Toy.broken_seeding Toy.learner Toy.silent Toy.cfg
                   Toy.model0 Toy.broken_world)
     = Py.Raise (Py.OtherError "RuntimeError").
Proof. split; reflexivity. Qed.

(** ** The reinforcement-learning driver *)

Lemma app_eq_cons_split {A : Type} (l1 l2 pre post : list A) (x : A) :
  l1 ++ l2 = pre ++ x :: post ->
  (exists mid, l1 = pre ++ x :: mid /\ post = mid ++ l2)
  \/ (exists pre', pre = l1 ++ pre' /\ l2 = pre' ++ x :: post).
Proof.
  revert pre. induction l1 as [|a l1 IH]; intros pre H.
  - right. exists pre. auto.
  - destruct pre as [|b pre]; simpl in H; injection H as -> H.
    + left. exists l1. auto.
    + destruct (IH pre H) as [(mid & -> & ->)|(pre' & -> & ->)].
      * left. exists mid. auto.
      * right. exists pre'. auto.
Qed.

Ltac log_forall :=
  repeat first [ apply Forall_nil_2 | apply Forall_cons_2; [cbn; auto|] ].

Ltac rl_unfold :=
  cbv beta iota zeta delta
    [Py.bind Py.ret Py.emit Py.raise Py.modify Py.gets
     RL.logger_info RL.next_backend_noise].

Section DriverFacts.

Context {seeding : Seeding} {environment : RL.Environment} {the_agent : RL.Agent}.

Import RL.

Lemma choose_action_facts (cfg : Config) (ep : Z)
    (ts : TimeStep observation action) (o : Objects) (w : World) :
  let r := choose_action cfg ep ts o w in
  exists a o1 src,
    Py.outcome r = Py.Ok (a, o1) /\ Py.events r = [Act ep src a]
    /\ act_follows_phase cfg (Act ep src a)
    /\ cudnn (Py.final r) = cudnn w
    /\ (ep < init_random_episodes cfg ->
        forall w', generators w' = generators w ->
          Py.events (choose_action cfg ep ts o w') = Py.events r
          /\ Py.outcome (choose_action cfg ep ts o w') = Py.outcome r
          /\ generators (Py.final (choose_action cfg ep ts o w'))
             = generators (Py.final r)).
Proof.
  unfold choose_action, act_follows_phase.
  destruct (Z.ltb_spec ep (init_random_episodes cfg)) as [Hlt|Hge].
  - rl_unfold.
    destruct (np_uniform (-1) 1 action_shape action_dtype (generators w))
      as [a g1] eqn:Hu.
    exists a, o, (Uniform (-1) 1 action_shape action_dtype).
    cbn. split_conj; try reflexivity.
    intros _ w' Hw'. rl_unfold. rewrite Hw', Hu. cbn. auto.
  - rl_unfold. cbn [generators].
    destruct (select_action (ts_observation ts) false
                match step_type ts with FIRST => true | _ => false end
                (backend_noise w (backend_calls w)) (agent_state o, generators w))
      as [a [ag g1]].
    eexists a, _, Policy. cbn. split_conj; try reflexivity. lia.
Qed.


Lemma collect_step (fuel : nat) (cfg : Config) (ep : Z)
    (ts : TimeStep observation action) (o : Objects) (rew : float) (t : Z)
    (w : World) :
  last ts = false ->
  collect (S fuel) cfg ep ts o rew t w =
  match choose_action cfg ep ts o w with
  | (w1, l1, Py.Ok (a, o1)) =>
      let ts1 := fst (env_step a (the_env o1)) in
      let o2 := {| the_env := snd (env_step a (the_env o1));
                   agent_state := agent_state o1;
                   replay_buffer :=
                     buffer_add {| tr_state := ts_observation ts;
                                   tr_action := ts_action ts1;
                                   tr_reward := ts_reward ts1;
                                   tr_next_state := ts_observation ts1 |}
                                (replay_buffer o1);
                   global_step := global_step o1 + 1 |} in
      let r := collect fuel cfg ep ts1 o2 (PrimFloat.add rew (ts_reward ts1)) (t + 1) w1 in
      (Py.final r, l1 ++ [EnvStep ep a; BufferAdd ep] ++ Py.events r, Py.outcome r)
  | (w1, l1, Py.Raise e) => (w1, l1, Py.Raise e)
  | (w1, l1, Py.Diverge) => (w1, l1, Py.Diverge)
  end.
Proof.
  intros Hlast. cbn [collect]. rewrite Hlast, bind_unfold.
  destruct (choose_action cfg ep ts o w) as [[w1 l1] [[a o1]|e|]]; try reflexivity.
  destruct (env_step a (the_env o1)) as [ts1 e1]. rl_unfold. cbn [fst snd].
  match goal with
  | |- context [collect fuel cfg ep ?a ?b ?c ?d ?e] =>
      destruct (collect fuel cfg ep a b c d e) as [[w2 l2] r2]
  end.
  reflexivity.
Qed.

Lemma collect_facts (cfg : Config) (ep : Z) (fuel : nat) :
  forall (ts : TimeStep observation action) (o : Objects) (rew : float) (t : Z)
         (w : World),
  let r := collect fuel cfg ep ts o rew t w in
  Forall (is_step_of ep) (Py.events r)
  /\ Forall (act_follows_phase cfg) (Py.events r)
  /\ stepped (Py.events r) = acted (Py.events r)
  /\ cudnn (Py.final r) = cudnn w
  /\ (ep < init_random_episodes cfg ->
      forall w', generators w' = generators w ->
        Py.events (collect fuel cfg ep ts o rew t w') = Py.events r
        /\ Py.outcome (collect fuel cfg ep ts o rew t w') = Py.outcome r
        /\ generators (Py.final (collect fuel cfg ep ts o rew t w'))
           = generators (Py.final r)).
Proof.
  induction fuel as [|fuel IH]; intros ts o rew t w r; subst r.
  - cbn [collect]. destruct (last ts); cbn; split_conj; auto.
  - destruct (last ts) eqn:Hlast.
    { cbn [collect]. rewrite Hlast. cbn. split_conj; auto. }
    rewrite collect_step by exact Hlast.
    pose proof (choose_action_facts cfg ep ts o w)
      as (a & o1 & src & Ho & He & Hp & Hc & Hd).
    cbv zeta in *.
    destruct (choose_action cfg ep ts o w) as [[w1 l1] r1] eqn:Hch.
    cbn [Py.events Py.outcome Py.final fst snd] in *. subst l1 r1.
    cbv zeta.
    set (ts1 := fst (env_step a (the_env o1))).
    set (o2 := {| the_env := snd (env_step a (the_env o1));
                  agent_state := agent_state o1;
                  replay_buffer := _; global_step := global_step o1 + 1 |}).
    specialize (IH ts1 o2 (PrimFloat.add rew (ts_reward ts1)) (t + 1) w1).
    cbv zeta in IH. destruct IH as (I1 & I2 & I3 & I4 & I5).
    cbn [Py.events Py.outcome Py.final fst snd].
    split_conj.
    + repeat (constructor; [reflexivity|]). exact I1.
    + constructor; [exact Hp|]. repeat (constructor; [exact I|]). exact I2.
    + unfold stepped, acted in *. cbn. f_equal. exact I3.
    + rewrite I4. exact Hc.
    + intros Hlt w' Hw'. rewrite collect_step by exact Hlast.
      destruct (Hd Hlt w' Hw') as (D1 & D2 & D3).
      destruct (choose_action cfg ep ts o w') as [[w1' l1'] r1'].
      cbn [Py.events Py.outcome Py.final fst snd] in *. subst l1' r1'.
      cbv zeta. fold ts1 o2.
      destruct (I5 Hlt w1' D3) as (J1 & J2 & J3).
      cbn [Py.events Py.outcome Py.final fst snd].
      rewrite J1, J2, J3. auto.
Qed.


Lemma steps_train_nobody (ep : Z) (l : list (event action)) :
  Forall (is_step_of ep) l -> trained_episodes l = [].
Proof.
  induction 1 as [|ev l Hev _ IH]; [reflexivity|].
  destruct ev; simpl in Hev; try contradiction; exact IH.
Qed.

Lemma steps_of_episode (ep : Z) (l : list (event action)) :
  Forall (is_step_of ep) l -> Forall (fun ev => episode_of ev = Some ep) l.
Proof.
  intros H. eapply Forall_impl; [exact H|]. intros ev Hev.
  destruct ev; simpl in Hev; try contradiction; subst; reflexivity.
Qed.

Lemma episode_run (fuel : nat) (cfg : Config) (ep : Z) (o : Objects) (w : World) :
  let ts := fst (env_reset (the_env o)) in
  let o1 := {| the_env := snd (env_reset (the_env o)); agent_state := agent_state o;
               replay_buffer := replay_buffer o; global_step := global_step o |} in
  let c := collect fuel cfg ep ts o1 0%float 0 w in
  let head := [LoggerInfo "Episode | Collecting data"; EnvReset ep] ++ Py.events c in
  match Py.outcome c with
  | Py.Ok (o2, t) =>
      let pre := head ++ episode_tail cfg ep t (global_step o2 * env_action_repeat cfg) in
      if init_random_episodes cfg <=? ep then
        Py.events (episode fuel cfg ep o w)
        = pre ++ [LoggerInfo "Training agent"; AgentTrain ep]
        /\ (exists o3, Py.outcome (episode fuel cfg ep o w) = Py.Ok o3)
        /\ cudnn (Py.final (episode fuel cfg ep o w)) = cudnn (Py.final c)
      else episode fuel cfg ep o w = (Py.final c, pre, Py.Ok o2)
  | Py.Raise e => episode fuel cfg ep o w = (Py.final c, head, Py.Raise e)
  | Py.Diverge => episode fuel cfg ep o w = (Py.final c, head, Py.Diverge)
  end.
Proof.
  intros ts o1 c head. subst head c. unfold episode, episode_tail.
  destruct (env_reset (the_env o)) as [ts' e1] eqn:Hr. cbn [fst snd] in *.
  subst ts. fold o1. rl_unfold.
  destruct (collect fuel cfg ep ts' o1 0%float 0 w) as [[w1 l1] [[o2 t]|e|]];
    cbn [Py.events Py.outcome Py.final fst snd app]; try reflexivity.
  destruct (init_random_episodes cfg <=? ep).
  - destruct (wandb_use_wandb cfg); cbn;
      match goal with
      | |- context [agent_train ?b ?n ?s] => destruct (agent_train b n s) as [ag g1]
      end; cbn; rewrite <- ?app_assoc; cbn; eauto.
  - destruct (wandb_use_wandb cfg); cbn; rewrite ?app_nil_r; reflexivity.
Qed.


Lemma episode_facts (fuel : nat) (cfg : Config) (ep : Z) (o : Objects) (w : World) :
  let r := episode fuel cfg ep o w in
  Forall (act_follows_phase cfg) (Py.events r)
  /\ Forall (fun ev => episode_of ev = None \/ episode_of ev = Some ep) (Py.events r)
  /\ stepped (Py.events r) = acted (Py.events r)
  /\ cudnn (Py.final r) = cudnn w
  /\ (trained_episodes (Py.events r) = []
      \/ (init_random_episodes cfg <= ep
          /\ exists X t, Py.events r = X ++ [AgentTrain ep]
                          /\ trained_episodes X = [] /\ Collected ep t ∈ X))
  /\ (ep < init_random_episodes cfg ->
      forall w', generators w' = generators w ->
        Py.events (episode fuel cfg ep o w') = Py.events r
        /\ Py.outcome (episode fuel cfg ep o w') = Py.outcome r
        /\ generators (Py.final (episode fuel cfg ep o w'))
           = generators (Py.final r)).
Proof.
  intros r. subst r.
  pose proof (episode_run fuel cfg ep o w) as Hrun. cbv zeta in Hrun.
  set (ts := fst (env_reset (the_env o))) in *.
  set (o1 := {| the_env := snd (env_reset (the_env o)); agent_state := agent_state o;
                replay_buffer := replay_buffer o; global_step := global_step o |}) in *.
  pose proof (collect_facts cfg ep fuel ts o1 0%float 0 w) as (C1 & C2 & C3 & C4 & C5).
  cbv zeta in *.
  set (c := collect fuel cfg ep ts o1 0%float 0 w) in *.
  pose proof (steps_train_nobody ep _ C1) as Cn.
  pose proof (steps_of_episode ep _ C1) as Ce.
  assert (Ce' : Forall (fun ev => episode_of ev = None \/ episode_of ev = Some ep)
                  (Py.events c)).
  { eapply Forall_impl; [exact Ce|]. auto. }
  assert (Hdet : ep < init_random_episodes cfg ->
      forall w', generators w' = generators w ->
        Py.events (episode fuel cfg ep o w') = Py.events (episode fuel cfg ep o w)
        /\ Py.outcome (episode fuel cfg ep o w') = Py.outcome (episode fuel cfg ep o w)
        /\ generators (Py.final (episode fuel cfg ep o w'))
           = generators (Py.final (episode fuel cfg ep o w))).
  { intros Hlt w' Hw'. destruct (C5 Hlt w' Hw') as (D1 & D2 & D3).
    pose proof (episode_run fuel cfg ep o w') as Hrun'. cbv zeta in Hrun'.
    fold ts o1 in Hrun'. rewrite D1, D2 in Hrun'. fold c in Hrun'.
    apply Z.leb_gt in Hlt.
    destruct (Py.outcome c) as [[o2 t]|e|]; rewrite ?Hlt in Hrun, Hrun';
      rewrite Hrun, Hrun'; cbn; auto. }
  refine ((fun H => match H with
                    | conj H1 (conj H2 (conj H3 (conj H4 H5))) =>
                        conj H1 (conj H2 (conj H3 (conj H4 (conj H5 Hdet))))
                    end) _).
  clear Hdet C5.
  destruct (Py.outcome c) as [[o2 t]|e|] eqn:Hc.
  - destruct (Z.leb_spec (init_random_episodes cfg) ep) as [Hge|Hlt].
    + destruct Hrun as (He & _ & Hcu). rewrite He, Hcu. unfold episode_tail.
      split_conj.
      * repeat (apply Forall_app; split); try exact C2;
          destruct (wandb_use_wandb cfg); log_forall.
      * repeat (apply Forall_app; split); try exact Ce';
          destruct (wandb_use_wandb cfg); log_forall.
      * unfold stepped, acted in *. rewrite !omap_app, C3.
        destruct (wandb_use_wandb cfg); reflexivity.
      * exact C4.
      * right. split; [exact Hge|].
        match goal with
        | |- context [?a ++ [LoggerInfo "Training agent"; AgentTrain ep]] =>
            exists (a ++ [LoggerInfo "Training agent"]), t
        end.
        split_conj.
        -- exact (app_assoc _ [_] [_]).
        -- unfold trained_episodes in *. rewrite !omap_app, Cn.
           destruct (wandb_use_wandb cfg); reflexivity.
        -- rewrite !elem_of_app, !elem_of_cons. auto 10.
    + rewrite Hrun. cbn [Py.events Py.outcome Py.final fst snd]. unfold episode_tail.
      split_conj.
      * repeat (apply Forall_app; split); try exact C2;
          destruct (wandb_use_wandb cfg); log_forall.
      * repeat (apply Forall_app; split); try exact Ce';
          destruct (wandb_use_wandb cfg); log_forall.
      * unfold stepped, acted in *. rewrite !omap_app, C3.
        destruct (wandb_use_wandb cfg); reflexivity.
      * exact C4.
      * left. unfold trained_episodes in *. rewrite !omap_app, Cn.
        destruct (wandb_use_wandb cfg); reflexivity.
  - rewrite Hrun. cbn [Py.events Py.outcome Py.final fst snd].
    split_conj; try assumption.
    + repeat (apply Forall_app; split); try exact C2; log_forall.
    + repeat (apply Forall_app; split); try exact Ce'; log_forall.
    + left. unfold trained_episodes in *. rewrite !omap_app, Cn. reflexivity.
  - rewrite Hrun. cbn [Py.events Py.outcome Py.final fst snd].
    split_conj; try assumption.
    + repeat (apply Forall_app; split); try exact C2; log_forall.
    + repeat (apply Forall_app; split); try exact Ce'; log_forall.
    + left. unfold trained_episodes in *. rewrite !omap_app, Cn. reflexivity.
Qed.


Lemma for_episodes_cons (fuel : nat) (cfg : Config) (ep : Z) (rest : list Z)
    (o : Objects) (w : World) :
  for_episodes fuel cfg (ep :: rest) o w =
  match episode fuel cfg ep o w with
  | (w1, l1, Py.Ok o1) =>
      let r := for_episodes fuel cfg rest o1 w1 in
      (Py.final r, l1 ++ Py.events r, Py.outcome r)
  | (w1, l1, Py.Raise e) => (w1, l1 ++ [], Py.Raise e)
  | (w1, l1, Py.Diverge) => (w1, l1 ++ [], Py.Diverge)
  end.
Proof.
  cbn [for_episodes]. rewrite bind_unfold.
  destruct (episode fuel cfg ep o w) as [[w1 l1] [o1|e|]];
    rewrite ?app_nil_r; try reflexivity.
  destruct (for_episodes fuel cfg rest o1 w1) as [[w2 l2] r2]. reflexivity.
Qed.

Lemma no_train_no_split (l pre post : list (event action)) (ep : Z) :
  trained_episodes l = [] -> l <> pre ++ AgentTrain ep :: post.
Proof.
  intros H ->. unfold trained_episodes in H. rewrite omap_app in H.
  apply app_eq_nil in H as [_ H]. discriminate.
Qed.

Lemma train_ends_block (X pre post : list (event action)) (ep ep' : Z) :
  trained_episodes X = [] ->
  X ++ [AgentTrain ep] = pre ++ AgentTrain ep' :: post ->
  pre = X /\ post = [] /\ ep' = ep.
Proof.
  intros HX Heq.
  apply app_eq_cons_split in Heq as [(mid & H1 & _)|(pre' & -> & H2)].
  - exfalso. eapply no_train_no_split; eauto.
  - destruct pre' as [|x pre'].
    + injection H2 as -> <-. rewrite app_nil_r. auto.
    + injection H2 as _ H2. destruct pre'; discriminate.
Qed.

(** What a run of the episodes shows, whatever ends it. *)
Lemma for_episodes_facts (fuel : nat) (cfg : Config) (episodes : list Z) :
  NoDup episodes ->
  forall (o : Objects) (w : World),
  let r := for_episodes fuel cfg episodes o w in
  Forall (act_follows_phase cfg) (Py.events r)
  /\ Forall (fun ev => episode_of ev = None
                       \/ exists e, e ∈ episodes /\ episode_of ev = Some e)
       (Py.events r)
  /\ stepped (Py.events r) = acted (Py.events r)
  /\ cudnn (Py.final r) = cudnn w
  /\ trained_episodes (Py.events r) `sublist_of` episodes
  /\ Forall (fun e => init_random_episodes cfg <= e) (trained_episodes (Py.events r))
  /\ (forall pre post ep, Py.events r = pre ++ AgentTrain ep :: post ->
      (exists t, Collected ep t ∈ pre)
      /\ Forall (fun ev => episode_of ev <> Some ep) post).
Proof.
  induction episodes as [|ep rest IH]; intros Hnd o w r; subst r.
  { cbn. split_conj; try done. intros [|] post ep H; discriminate. }
  apply NoDup_cons in Hnd as [Hnotin Hnd].
  rewrite for_episodes_cons.
  pose proof (episode_facts fuel cfg ep o w) as (E1 & E2 & E3 & E4 & E5 & _).
  cbv zeta in *.
  assert (E2' : Forall (fun ev => episode_of ev = None
                  \/ exists e, e ∈ ep :: rest /\ episode_of ev = Some e)
                  (Py.events (episode fuel cfg ep o w))).
  { eapply Forall_impl; [exact E2|]. intros ev [H|H]; [auto|].
    right. exists ep. split; [left|exact H]. }
  assert (E5a : trained_episodes (Py.events (episode fuel cfg ep o w)) = []
                \/ (init_random_episodes cfg <= ep
                    /\ trained_episodes (Py.events (episode fuel cfg ep o w)) = [ep])).
  { destruct E5 as [H|(Hge & X & t & -> & HX & _)]; [auto|].
    right. split; [exact Hge|].
    unfold trained_episodes in *. rewrite omap_app, HX. reflexivity. }
  assert (E6 : forall l2 pre post ep',
             Forall (fun ev => episode_of ev = None
                       \/ exists e, e ∈ rest /\ episode_of ev = Some e) l2 ->
             (forall pre' , l2 = pre' ++ AgentTrain ep' :: post ->
                (exists t, Collected ep' t ∈ pre')
                /\ Forall (fun ev => episode_of ev <> Some ep') post) ->
             Py.events (episode fuel cfg ep o w) ++ l2 = pre ++ AgentTrain ep' :: post ->
             (exists t, Collected ep' t ∈ pre)
             /\ Forall (fun ev => episode_of ev <> Some ep') post).
  { intros l2 pre post ep' Hl2 Hrest Heq.
    apply app_eq_cons_split in Heq as [(mid & H1 & ->)|(pre' & -> & H2)].
    - destruct E5 as [H|(_ & X & t & HX1 & HX2 & HX3)].
      + exfalso. eapply no_train_no_split; eauto.
      + rewrite HX1 in H1.
        apply train_ends_block in H1 as (-> & -> & ->); [|exact HX2].
        split; [eauto|]. cbn.
        eapply Forall_impl; [exact Hl2|].
        intros ev [H|(e & He & H)]; rewrite H; [discriminate|].
        intros [= ->]. contradiction.
    - destruct (Hrest pre' H2) as ((t & Ht) & Hpost).
      split; [|exact Hpost]. exists t. apply elem_of_app. auto. }
  destruct (episode fuel cfg ep o w) as [[w1 l1] [o1|e|]];
    cbn [Py.events Py.outcome Py.final fst snd] in *.
  - specialize (IH Hnd o1 w1). cbv zeta in IH.
    destruct IH as (I1 & I2 & I3 & I4 & I5 & I6 & I7).
    destruct (for_episodes fuel cfg rest o1 w1) as [[w2 l2] r2].
    cbn [Py.events Py.outcome Py.final fst snd] in *.
    split_conj.
    + apply Forall_app. auto.
    + apply Forall_app. split; [exact E2'|].
      eapply Forall_impl; [exact I2|]. intros ev [H|(e & He & H)]; [auto|].
      right. exists e. split; [right; exact He|exact H].
    + unfold stepped, acted in *. rewrite !omap_app, E3, I3. reflexivity.
    + rewrite I4. exact E4.
    + unfold trained_episodes in *. rewrite omap_app.
      destruct E5a as [->|(_ & ->)]; cbn.
      * apply sublist_cons. exact I5.
      * apply sublist_skip. exact I5.
    + unfold trained_episodes in *. rewrite omap_app. apply Forall_app.
      split; [|exact I6].
      destruct E5a as [->|(Hge & ->)]; repeat constructor. exact Hge.
    + intros pre post ep' Heq. eapply E6; [exact I2| |exact Heq].
      intros pre' H. exact (I7 pre' post ep' H).
  - rewrite app_nil_r. split_conj; try assumption.
    + unfold trained_episodes in *.
      destruct E5a as [->|(_ & ->)]; cbn.
      * apply sublist_nil_l.
      * apply sublist_skip, sublist_nil_l.
    + destruct E5a as [->|(Hge & ->)]; repeat constructor. exact Hge.
    + intros pre post ep' Heq. apply (E6 [] pre post ep'); [constructor| |].
      * intros pre' H. destruct pre'; discriminate.
      * rewrite app_nil_r. exact Heq.
  - rewrite app_nil_r. split_conj; try assumption.
    + unfold trained_episodes in *.
      destruct E5a as [->|(_ & ->)]; cbn.
      * apply sublist_nil_l.
      * apply sublist_skip, sublist_nil_l.
    + destruct E5a as [->|(Hge & ->)]; repeat constructor. exact Hge.
    + intros pre post ep' Heq. apply (E6 [] pre post ep'); [constructor| |].
      * intros pre' H. destruct pre'; discriminate.
      * rewrite app_nil_r. exact Heq.
Qed.






Lemma NoDup_range (n : Z) : NoDup (Py.range n).
Proof.
  unfold Py.range. apply NoDup_fmap; [|apply NoDup_seq].
  intros i j H. lia.
Qed.


(** The part of [train] that follows the seeding. *)
Lemma train_after_seed_run (fuel : nat) (cfg : Config) (env0 : env)
    (agent0 : agent) (w : World) :
  let r := train_after_seed fuel cfg env0 agent0 w in
  let w1 := set_cudnn (Py.setattr "benchmark" false
                         (Py.setattr "determinstic" true (cudnn w))) w in
  let o := {| the_env := env0; agent_state := agent0;
              replay_buffer :=
                buffer_new
                  ((num_train_episodes cfg
                    * (episode_length cfg / env_action_repeat cfg)) / Z.max 1 4)
                  (batch_size cfg);
              global_step := 0 |} in
  cudnn (Py.final r) = cudnn w1
  /\ Py.events r
     = if (env_action_repeat cfg =? 0)
          || bool_decide (observation_shape = []) || bool_decide (action_shape = [])
       then []
       else (if wandb_use_wandb cfg then [WandbInit] else [])
            ++ Py.events (for_episodes fuel cfg (Py.range (num_train_episodes cfg)) o w1).
Proof.
  intros r w1 o. subst r. unfold train_after_seed, set_backend_flags, Py.floordiv, first_dim.
  rl_unfold. fold w1.
  destruct (env_action_repeat cfg =? 0); [cbn; auto|].
  destruct observation_shape as [|d1 s1]; [cbn; auto|].
  destruct action_shape as [|d2 s2]; [cbn; auto|].
  fold o. cbn [orb bool_decide decide_rel]. rewrite !bool_decide_eq_false_2 by discriminate.
  cbn [orb].
  pose proof (for_episodes_facts fuel cfg (Py.range (num_train_episodes cfg))
                (NoDup_range _) o w1) as (_ & _ & _ & F4 & _).
  cbv zeta in F4.
  destruct (wandb_use_wandb cfg); cbn beta iota;
    destruct (for_episodes fuel cfg (Py.range (num_train_episodes cfg)) o w1)
      as [[w2 l2] r2];
    cbn [Py.events Py.outcome Py.final fst snd] in *;
    destruct r2; cbn; rewrite ?app_nil_r; auto.
Qed.

Lemma rl_seed_block_run (cfg : Config) (w : World) :
  let r := seed_block cfg w in
  Py.events r = [] /\ cudnn (Py.final r) = cudnn w.
Proof.
  unfold seed_block, Py.try_except, call_set_seed, random_randint, Py.bind.
  destruct (set_seed_everywhere (random_seed cfg) (generators w)) as [g [[]|e|]];
    simpl; auto.
  destruct (random_sample g) as [raw g1]. simpl.
  destruct (set_seed_everywhere (Py.randint 0 10000 raw) g1) as [g2 r2]. simpl. auto.
Qed.

(** The log of [train] is empty or is that of the part after the seeding,
    run in the world the seeding leaves. *)
Lemma rl_train_run (fuel : nat) (cfg : Config) (env0 : env) (agent0 : agent)
    (w : World) :
  let r := train fuel cfg env0 agent0 w in
  (Py.events r = [] /\ cudnn (Py.final r) = cudnn w)
  \/ (exists w0, cudnn w0 = cudnn w
                 /\ Py.final (seed_block cfg w) = w0
                 /\ r = train_after_seed fuel cfg env0 agent0 w0).
Proof.
  intros r. subst r. unfold train. rewrite bind_unfold.
  pose proof (rl_seed_block_run cfg w) as (S1 & S2). cbv zeta in *.
  destruct (seed_block cfg w) as [[w0 l0] [[]|e|]];
    cbn [Py.events Py.final fst snd] in *; subst l0; [|left; auto..].
  right. exists w0. split_conj; [exact S2|reflexivity|].
  destruct (train_after_seed fuel cfg env0 agent0 w0) as [[w2 l2] r2]. reflexivity.
Qed.

End DriverFacts.

(** C6: in every run of the driver, whatever ends it, an action of an
    episode below [cfg.init_random_episodes] is drawn by
    [np.random.uniform(-1, 1, shape).astype(dtype)] with the shape and dtype
    of the environment's action spec, and an action of a later episode comes
    from the agent's policy; the action given to the environment is the one
    chosen; [agent.train] is called only for episodes whose index is at
    least [cfg.init_random_episodes], at most once per episode, after the
    collection loop of that episode has ended, and no event of that episode
    follows it. *)
Theorem warmup_acts_randomly_and_training_follows_collection
    {seeding : Seeding} {environment : RL.Environment} {the_agent : RL.Agent}
    (fuel : nat) (cfg : RL.Config) (env0 : RL.env) (agent0 : RL.agent)
    (w : RL.World) :
  let r := RL.train fuel cfg env0 agent0 w in
  Forall (RL.act_follows_phase cfg) (Py.events r)
  /\ RL.stepped (Py.events r) = RL.acted (Py.events r)
  /\ Forall (fun e => RL.init_random_episodes cfg <= e)
       (RL.trained_episodes (Py.events r))
  /\ NoDup (RL.trained_episodes (Py.events r))
  /\ (forall pre post ep, Py.events r = pre ++ RL.AgentTrain ep :: post ->
        (exists t, RL.Collected ep t ∈ pre)
        /\ Forall (fun ev => RL.episode_of ev <> Some ep) post).
Proof.
  intros r.
  destruct (rl_train_run fuel cfg env0 agent0 w) as [[H _]|(w0 & _ & _ & H)];
    fold r in H.
  { rewrite H. cbn. split_conj;
      [constructor | reflexivity | constructor | constructor
      | intros pre post ep Heq; destruct pre; discriminate]. }
  rewrite H. clear H r.
  pose proof (train_after_seed_run fuel cfg env0 agent0 w0) as (_ & He).
  cbv zeta in He. rewrite He. clear He.
  destruct ((RL.env_action_repeat cfg =? 0)
            || bool_decide (RL.observation_shape = [])
            || bool_decide (RL.action_shape = [])).
  { cbn. split_conj;
      [constructor | reflexivity | constructor | constructor
      | intros pre post ep Heq; destruct pre; discriminate]. }
  match goal with
  | |- context [RL.for_episodes fuel cfg ?l ?o ?w1] =>
      pose proof (for_episodes_facts fuel cfg l (NoDup_range _) o w1)
        as (F1 & F2 & F3 & _ & F5 & F6 & F7);
      cbv zeta in *;
      set (tr := Py.events (RL.for_episodes fuel cfg l o w1)) in *
  end.
  assert (Hpre : Forall (RL.act_follows_phase cfg)
                   (if RL.wandb_use_wandb cfg then [RL.WandbInit] else [])).
  { destruct (RL.wandb_use_wandb cfg); repeat constructor. }
  split_conj.
  - apply Forall_app. auto.
  - unfold RL.stepped, RL.acted in *. rewrite !omap_app, F3.
    destruct (RL.wandb_use_wandb cfg); reflexivity.
  - unfold RL.trained_episodes in *. rewrite omap_app.
    destruct (RL.wandb_use_wandb cfg); exact F6.
  - unfold RL.trained_episodes in *. rewrite omap_app.
    replace (omap _ (if RL.wandb_use_wandb cfg then [RL.WandbInit] else []))
      with (@nil Z) by (destruct (RL.wandb_use_wandb cfg); reflexivity).
    cbn. eapply sublist_NoDup; [apply NoDup_range|exact F5].
  - intros pre post ep Heq.
    apply app_eq_cons_split in Heq as [(mid & H1 & _)|(pre' & -> & H2)].
    + exfalso. destruct (RL.wandb_use_wandb cfg).
      * destruct pre as [|x [|y pre]]; discriminate.
      * destruct pre; discriminate.
    + destruct (F7 pre' post ep H2) as ((t & Ht) & Hpost).
      split; [|exact Hpost]. exists t. apply elem_of_app. auto.
Qed.




(** * Further properties of the code *)

(** ** The supervised script *)

Section SupervisedMore.

Context {seeding : Seeding} {learner : SL.Learner} {early : Stopper}.

Import SL.



(** The loop changes nothing of the world but the files. *)
Lemma epoch_body_world (freq : Z) (run : option string) (epoch : Z)
    (st : LoopState) (w : World) :
  let r := epoch_body freq run epoch st w in
  Py.final r = set_fs (fs (Py.final r)) w
  /\ grad_epochs (Py.events r) = replicate (length (train_loader epoch)) epoch
  /\ (forall st' brk, Py.outcome r = Py.Ok (st', brk) ->
      model st' = trained (train_loader epoch) (model st)).
Proof.
  intros r. subst r. rewrite epoch_body_run.
  assert (Hg : forall l, grad_epochs (Epoch epoch :: grad_events epoch (train_loader epoch) ++ l)
                         = replicate (length (train_loader epoch)) epoch ++ grad_epochs l).
  { intros l. unfold grad_epochs, grad_events. cbn [omap list_omap].
    rewrite omap_app. f_equal.
    induction (train_loader epoch) as [|b bs IH]; [reflexivity|].
    cbn. f_equal. exact IH. }
  assert (Hw : w = set_fs (fs w) w) by (destruct w; reflexivity).
  destruct (freq =? 0).
  { cbn [Py.events Py.outcome Py.final fst snd]. split_conj; [exact Hw| |discriminate].
    rewrite <- (app_nil_r (grad_events _ _)), Hg, app_nil_r. reflexivity. }
  destruct (epoch mod freq =? 0).
  2:{ cbn [Py.events Py.outcome Py.final fst snd]. split_conj; [exact Hw| |].
      - rewrite <- (app_nil_r (grad_events _ _)), Hg, app_nil_r. reflexivity.
      - intros st' brk [= <- _]. reflexivity. }
  cbn [Py.events Py.outcome Py.final fst snd]. rewrite Hg.
  rewrite evaluate_run, maybe_checkpoint_run. cbn [model best_nll early_stopper fst snd].
  set (nll := val_nll _).
  destruct (PrimFloat.ltb nll (best_nll st));
    [destruct run as [d|];
       [destruct (writable w (Py.path_join d "best_ckpt_dict.pt"))|]|];
    cbn iota beta;
    try destruct (snd (stopper_call (early_stopper st) nll));
    cbn [Py.events Py.outcome Py.final fst snd];
    (split_conj;
     [ first [exact Hw | destruct w; reflexivity]
     | unfold grad_epochs; rewrite ?omap_app; cbn; rewrite app_nil_r; reflexivity
     | intros st' brk H; first [discriminate | injection H as <- _; reflexivity] ]).
Qed.

Lemma for_epochs_world (freq : Z) (run : option string) (epochs : list Z) :
  forall (st : LoopState) (w : World),
  let r := for_epochs freq run epochs st w in
  Py.final r = set_fs (fs (Py.final r)) w
  /\ grad_epochs (Py.events r)
     = started_epochs (Py.events r) ≫= (fun e => replicate (length (train_loader e)) e)
  /\ (forall st', Py.outcome r = Py.Ok st' ->
      model st' = trained_over (started_epochs (Py.events r)) (model st)).
Proof.
  induction epochs as [|epoch rest IH]; intros st w r; subst r.
  { cbn. split_conj; [destruct w; reflexivity|reflexivity|].
    intros st' [= <-]. reflexivity. }
  rewrite for_epochs_cons.
  pose proof (epoch_body_world freq run epoch st w) as (B1 & B2 & B3).
  assert (Bs : started_epochs (Py.events (epoch_body freq run epoch st w)) = [epoch]).
  { destruct (Z.eq_dec freq 0) as [->|Hf].
    - rewrite epoch_body_run. cbn [Z.eqb Py.events fst snd].
      unfold started_epochs. cbn. rewrite omap_grad_events; reflexivity.
    - pose proof (epoch_body_facts freq run epoch st w Hf) as (H & _). exact H. }
  cbv zeta in *.
  destruct (epoch_body freq run epoch st w) as [[w1 l1] [[st1 [|]]|e|]];
    cbn [Py.events Py.outcome Py.final fst snd] in *; rewrite ?app_nil_r.
  - split_conj; [exact B1| |].
    + rewrite Bs, B2. cbn. rewrite app_nil_r. reflexivity.
    + intros st' [= <-]. rewrite Bs. cbn. eauto.
  - specialize (IH st1 w1). cbv zeta in IH. destruct IH as (I1 & I2 & I3).
    destruct (for_epochs freq run rest st1 w1) as [[w2 l2] r2].
    cbn [Py.events Py.outcome Py.final fst snd] in *.
    split_conj.
    + rewrite I1, B1. reflexivity.
    + unfold grad_epochs, started_epochs in *.
      rewrite !omap_app, B2, I2, Bs. cbn. reflexivity.
    + intros st' H. unfold started_epochs in *. rewrite omap_app, Bs. cbn.
      rewrite (I3 st' H), (B3 st1 false eq_refl). reflexivity.
  - split_conj; [exact B1| |discriminate].
    rewrite Bs, B2. cbn. rewrite app_nil_r. reflexivity.
  - split_conj; [exact B1| |discriminate].
    rewrite Bs, B2. cbn. rewrite app_nil_r. reflexivity.
Qed.


Lemma range_cons (n : Z) : 0 < n -> exists rest, Py.range n = 0 :: rest.
Proof.
  intros H. unfold Py.range.
  destruct (Z.to_nat n) as [|k] eqn:E; [lia|]. cbn. eauto.
Qed.


End SupervisedMore.







(** ** More on the supervised script *)

(** A NaN is below nothing. *)
Lemma ltb_nan_l (b : float) : PrimFloat.ltb nan b = false.
Proof. rewrite FloatAxioms.ltb_spec. reflexivity. Qed.

Section SupervisedRuns.

Context {seeding : Seeding} {learner : SL.Learner} {early : Stopper}.

Import SL.

(** What a reader that ignores the wandb start and the logger sees in a log
    of [train] is what it sees in the log of the loop. *)
Lemma train_log_is_loop_log (cfg : TrainConfig) (m : sfr * optimizer) (w : World) :
  let r := train cfg m w in
  ((forall B (f : event -> option B),
       f WandbInit = None -> omap f (Py.events r) = [])
   /\ forall v, Py.outcome r <> Py.Ok v)
  \/ (logging_epoch_freq cfg <> 0
      /\ exists (w1 : World) (es : stopper),
          let run := if wandb_use_wandb cfg then Some (wandb_dir w) else None in
          let lp := for_epochs (logging_epoch_freq cfg) run (Py.range (n_epochs cfg))
                      {| best_nll := infinity; model := m; early_stopper := es |} w1 in
          (forall B (f : event -> option B),
              f WandbInit = None -> (forall msg, f (LoggerInfo msg) = None) ->
              omap f (Py.events r) = omap f (Py.events lp))
          /\ Py.outcome r
             = match Py.outcome lp with
               | Py.Ok st => Py.Ok (fst (model st))
               | Py.Raise e => Py.Raise e
               | Py.Diverge => Py.Diverge
               end).
Proof.
  intros r.
  destruct (train_run cfg m w) as [[[H|H] Hno]|(Hf & w1 & es & _ & _ & H & Ho)];
    fold r in H.
  - left. split; [|exact Hno]. intros B f H1. rewrite H. unfold wandb_events.
    destruct (wandb_use_wandb cfg); cbn; rewrite ?H1; reflexivity.
  - left. split; [|exact Hno]. intros B f _. rewrite H. reflexivity.
  - right. split; [exact Hf|]. exists w1, es. cbv zeta in *. split; [|exact Ho].
    intros B f H1 H2. rewrite H, !omap_app. unfold wandb_events, train_loop.
    destruct (wandb_use_wandb cfg); cbn; rewrite ?H1;
      match goal with
      | |- context [Py.outcome ?x] => destruct (Py.outcome x)
      end; cbn; rewrite ?H2, ?app_nil_r; reflexivity.
Qed.

(** An epoch at which [checkpoint] is called was evaluated in the same turn,
    with an nll below the best one. *)
Lemma epoch_body_checkpointed (freq : Z) (run : option string) (epoch : Z)
    (st : LoopState) (w : World) (e : Z) :
  let r := epoch_body freq run epoch st w in
  e ∈ checkpoint_epochs (Py.events r) ->
  exists x, (e, x) ∈ evaluations (Py.events r)
            /\ PrimFloat.ltb x (best_nll st) = true.
Proof.
  intros r. subst r. rewrite epoch_body_run.
  unfold checkpoint_epochs, evaluations.
  destruct (freq =? 0).
  { cbn [Py.events fst snd omap list_omap]. rewrite omap_grad_events by reflexivity.
    intros H. apply elem_of_nil in H. contradiction. }
  destruct (epoch mod freq =? 0).
  2:{ cbn [Py.events fst snd omap list_omap]. rewrite omap_grad_events by reflexivity.
      intros H. apply elem_of_nil in H. contradiction. }
  cbn [Py.events Py.outcome Py.final fst snd].
  rewrite evaluate_run, maybe_checkpoint_run. cbn [model best_nll early_stopper fst snd].
  set (nll := val_nll _).
  destruct (PrimFloat.ltb nll (best_nll st)) eqn:Hlt;
    [destruct run as [d|];
       [destruct (writable w (Py.path_join d "best_ckpt_dict.pt"))|]|];
    cbn iota beta;
    try destruct (snd (stopper_call (early_stopper st) nll));
    cbn [Py.events Py.outcome Py.final fst snd];
    cbn [omap list_omap]; rewrite !omap_app, !omap_grad_events by reflexivity;
    cbn; intros H;
    repeat match goal with
           | H : _ ∈ [] |- _ => apply elem_of_nil in H; contradiction
           | H : _ ∈ _ :: _ |- _ => apply elem_of_cons in H as [->|H]
           end;
    exists nll; (split; [left|exact Hlt]).
Qed.

Lemma for_epochs_checkpointed (freq : Z) (run : option string) (epochs : list Z) :
  forall (st : LoopState) (w : World) (e : Z),
  let r := for_epochs freq run epochs st w in
  e ∈ checkpoint_epochs (Py.events r) ->
  exists x b, (e, x) ∈ evaluations (Py.events r) /\ PrimFloat.ltb x b = true.
Proof.
  induction epochs as [|epoch rest IH]; intros st w e r; subst r.
  { cbn. intros H. apply elem_of_nil in H. contradiction. }
  rewrite for_epochs_cons.
  pose proof (epoch_body_checkpointed freq run epoch st w e) as B. cbv zeta in B.
  destruct (epoch_body freq run epoch st w) as [[w1 l1] [[st1 [|]]|ex|]];
    cbn [Py.events Py.outcome Py.final fst snd] in *; rewrite ?app_nil_r;
    try (intros H; destruct (B H) as (x & Hx & Hlt); exists x, (best_nll st); auto).
  specialize (IH st1 w1 e). cbv zeta in IH.
  destruct (for_epochs freq run rest st1 w1) as [[w2 l2] r2].
  cbn [Py.events Py.outcome Py.final fst snd] in *.
  unfold checkpoint_epochs, evaluations in *. rewrite !omap_app.
  intros H. apply elem_of_app in H as [H|H].
  - destruct (B H) as (x & Hx & Hlt). exists x, (best_nll st).
    split; [apply elem_of_app; left; exact Hx|exact Hlt].
  - destruct (IH H) as (x & b & Hx & Hlt). exists x, b.
    split; [apply elem_of_app; right; exact Hx|exact Hlt].
Qed.

End SupervisedRuns.

(** X4: when the early stopper never signals and [train] returns, every
    epoch of [range(cfg.n_epochs)] has run, in order; each epoch made one
    gradient step per batch of the loader; and the model returned is the
    initial one trained over all these epochs in turn. *)
Theorem train_runs_every_epoch_without_signal
    {seeding : Seeding} {learner : SL.Learner} {early : Stopper}
    (cfg : SL.TrainConfig) (m : SL.sfr * SL.optimizer) (w : SL.World) (v : SL.sfr)
    (Hsilent : forall es x, snd (stopper_call es x) = false)
    (Hok : Py.outcome (SL.train cfg m w) = Py.Ok v) :
  let r := SL.train cfg m w in
  SL.started_epochs (Py.events r) = Py.range (SL.n_epochs cfg)
  /\ SL.grad_epochs (Py.events r)
     = Py.range (SL.n_epochs cfg)
         ≫= (fun e => replicate (length (SL.train_loader e)) e)
  /\ v = fst (SL.trained_over (Py.range (SL.n_epochs cfg)) m).
Proof.
  intros r.
  destruct (train_log_is_loop_log cfg m w) as [[_ Hno]|(Hf & w1 & es & Hr & Ho)].
  { exfalso. exact (Hno v Hok). }
  cbv zeta in *. fold r in Hr, Ho.
  set (run := if SL.wandb_use_wandb cfg then Some (SL.wandb_dir w) else None) in *.
  set (st0 := {| SL.best_nll := infinity; SL.model := m; SL.early_stopper := es |}) in *.
  pose proof (for_epochs_facts (SL.logging_epoch_freq cfg) run
                (Py.range (SL.n_epochs cfg)) Hf st0 w1)
    as (_ & _ & _ & _ & _ & I6 & _ & I8 & _).
  pose proof (for_epochs_world (SL.logging_epoch_freq cfg) run
                (Py.range (SL.n_epochs cfg)) st0 w1) as (_ & W2 & W3).
  cbv zeta in *.
  set (lp := SL.for_epochs (SL.logging_epoch_freq cfg) run
               (Py.range (SL.n_epochs cfg)) st0 w1) in *.
  fold r in Hok. rewrite Ho in Hok.
  destruct (Py.outcome lp) as [st'| |] eqn:Elp; try discriminate.
  injection Hok as <-.
  assert (Hs : SL.started_epochs (Py.events lp) = Py.range (SL.n_epochs cfg)).
  { apply (I8 st' eq_refl). apply quiet_of_silent.
    intros e x s Hin. destruct (I6 e x s Hin) as (_ & _ & es' & ->). apply Hsilent. }
  unfold SL.started_epochs, SL.grad_epochs in *.
  rewrite !Hr by reflexivity. rewrite W2, Hs. split_conj; try reflexivity.
  rewrite (W3 st' eq_refl), Hs. reflexivity.
Qed.

Lemma train_runs_every_epoch_without_signal_witness :
  SL.started_epochs
    (Py.events (@SL.train Toy.seeding Toy.learner Toy.silent Toy.cfg Toy.model0 Toy.world))
  = Py.range (SL.n_epochs Toy.cfg).
Proof.
  refine (proj1 (@train_runs_every_epoch_without_signal Toy.seeding Toy.learner
                   Toy.silent Toy.cfg Toy.model0 Toy.world _ _ _)).
  - intros es x. reflexivity.
  - vm_compute. reflexivity.
Defined.

(** X5: an evaluation whose validation nll is NaN never leads to a
    checkpoint: every epoch at which [train] calls [checkpoint] was
    evaluated with an nll that is not NaN (the test [val_nll < best_nll] of
    line 182 is false for NaN). *)
Theorem nan_nll_is_never_checkpointed
    {seeding : Seeding} {learner : SL.Learner} {early : Stopper}
    (cfg : SL.TrainConfig) (m : SL.sfr * SL.optimizer) (w : SL.World) (e : Z)
    (Hin : e ∈ SL.checkpoint_epochs (Py.events (SL.train cfg m w))) :
  exists x, (e, x) ∈ SL.evaluations (Py.events (SL.train cfg m w)) /\ x <> nan.
Proof.
  destruct (train_log_is_loop_log cfg m w) as [[Hnil _]|(Hf & w1 & es & Hr & _)].
  { unfold SL.checkpoint_epochs in Hin. rewrite Hnil in Hin by reflexivity.
    apply elem_of_nil in Hin. contradiction. }
  cbv zeta in *.
  unfold SL.checkpoint_epochs, SL.evaluations in *.
  rewrite Hr in Hin by reflexivity. rewrite Hr by reflexivity.
  destruct (for_epochs_checkpointed _ _ _ _ _ _ Hin) as (x & b & Hx & Hlt).
  exists x. split; [exact Hx|].
  intros ->. rewrite ltb_nan_l in Hlt. discriminate.
Qed.

Lemma nan_nll_is_never_checkpointed_witness :
  exists x,
    (5, x) ∈ SL.evaluations
      (Py.events (@SL.train Toy.seeding Toy.learner Toy.silent Toy.cfg Toy.model0 Toy.world))
    /\ x <> nan.
Proof.
  apply (@nan_nll_is_never_checkpointed Toy.seeding Toy.learner Toy.silent
           Toy.cfg Toy.model0 Toy.world 5).
  replace (SL.checkpoint_epochs _) with [0; 5] by (vm_compute; reflexivity).
  apply elem_of_cons. right. apply elem_of_cons. left. reflexivity.
Defined.

Section SupervisedWorld.

Context {seeding : Seeding} {learner : SL.Learner} {early : Stopper}.

Import SL.





End SupervisedWorld.





(** ** More on the transition model *)

Section TransitionMore.

Context {torch : Transitions.Torch} {early : Stopper}.

Import Transitions.

Ltac mlp_unfold :=
  cbv beta iota zeta delta
    [Py.bind Py.ret Py.emit Py.raise Py.modify Py.gets lift].

(** One iteration under a stopper that is there. *)
Lemma iteration_state (lr : float) (bs : Z) (name : option string)
    (buf : replay_buffer) (i : Z) (w : World) (s : stopper) :
  early_stopper w = Some s ->
  let r := iteration lr bs name buf i w in
  early_stopper (Py.final r) = Some (fed s (consulted (Py.events r)))
  /\ optimizer_steps (Py.events r) `prefix_of` [i]
  /\ (forall b, Py.outcome r = Py.Ok b -> optimizer_steps (Py.events r) = [i])
  /\ (Py.outcome r = Py.Ok true -> ~ Forall (fun ev => ~ is_signal ev) (Py.events r))
  /\ (forall b, Py.outcome r = Py.Ok b ->
      exists nw loss, grad_iteration lr bs buf (network w) = Py.Ok (nw, loss)
                      /\ network (Py.final r) = nw
                      /\ consulted (Py.events r) = [loss]).
Proof.
  intros Hs. unfold iteration. mlp_unfold. rewrite Hs.
  destruct (grad_iteration lr bs buf (network w)) as [[nw loss]|e|] eqn:Hg;
    cbn [fst snd].
  2,3: cbn; rewrite Hs; split_conj;
       [reflexivity|apply prefix_nil|discriminate|discriminate|discriminate].
  destruct name as [key|];
    destruct (stopper_call s loss) as [s1 [|]] eqn:Hc;
    cbn [Py.events Py.outcome Py.final fst snd app early_stopper network];
    (split_conj;
     [ cbn; rewrite Hc; reflexivity
     | reflexivity
     | reflexivity
     | first [discriminate
             | intros _ H; rewrite Forall_forall in H;
               apply (H (Consult i loss true)); [set_solver|exact I]]
     | intros b _; exists nw, loss; auto ]).
Qed.

Lemma fed_app (s : stopper) (l1 l2 : list float) :
  fed s (l1 ++ l2) = fed (fed s l1) l2.
Proof. apply foldl_app. Qed.

Lemma for_iterations_state (lr : float) (bs : Z) (name : option string)
    (buf : replay_buffer) (todo : list Z) :
  forall (w : World) (s : stopper),
  early_stopper w = Some s ->
  let r := for_iterations (iteration lr bs name buf) todo w in
  early_stopper (Py.final r) = Some (fed s (consulted (Py.events r)))
  /\ optimizer_steps (Py.events r) `prefix_of` iterations (Py.events r)
  /\ (Py.outcome r = Py.Ok tt ->
      optimizer_steps (Py.events r) = iterations (Py.events r)
      /\ length (consulted (Py.events r)) = length (iterations (Py.events r)))
  /\ (Py.outcome r = Py.Ok tt ->
      Forall (fun ev => ~ is_signal ev) (Py.events r) ->
      iterations (Py.events r) = todo).
Proof.
  induction todo as [|i rest IH]; intros w s Hs r; subst r.
  { cbn. rewrite Hs. auto. }
  rewrite for_iterations_cons.
  pose proof (iteration_state lr bs name buf i w s Hs) as (B1 & B2 & B3 & B4 & B5).
  pose proof (iteration_facts lr bs name buf i w) as (F1 & _).
  cbv zeta in *.
  destruct (iteration lr bs name buf i w) as [[w1 l1] [[|]|e|]];
    cbn [Py.events Py.outcome Py.final fst snd] in *; rewrite ?app_nil_r.
  - destruct (B5 true eq_refl) as (nw & loss & _ & _ & Hc).
    split_conj; [exact B1|rewrite F1; exact B2| |].
    + intros _. rewrite F1, (B3 true eq_refl), Hc. auto.
    + intros _ H. destruct (B4 eq_refl H).
  - specialize (IH w1 _ B1). cbv zeta in IH. destruct IH as (I1 & I2 & I3 & I4).
    destruct (for_iterations (iteration lr bs name buf) rest w1) as [[w2 l2] r2].
    cbn [Py.events Py.outcome Py.final fst snd] in *.
    destruct (B5 false eq_refl) as (nw & loss & _ & _ & Hc).
    unfold optimizer_steps, iterations, consulted in *. rewrite !omap_app.
    rewrite (B3 false eq_refl), F1 in *. split_conj.
    + rewrite I1, fed_app. reflexivity.
    + apply prefix_app. exact I2.
    + intros H. destruct (I3 H) as (-> & E). rewrite !length_app, E, Hc. auto.
    + intros H Hq. apply Forall_app in Hq as [_ Hq]. rewrite (I4 H Hq). reflexivity.
  - split_conj; [exact B1|rewrite F1; exact B2|discriminate|discriminate].
  - split_conj; [exact B1|rewrite F1; exact B2|discriminate|discriminate].
Qed.

End TransitionMore.



(** X9: under an early stopper [s], [train_fn] runs the iterations
    0, 1, 2, ... in order, a prefix of [range(num_iterations)]; every
    optimiser step belongs to an iteration that was entered, in the same
    order; the stopper left behind is [s] after [reset] and after one call
    per loss shown to it, in order; and when [train_fn] returns, every
    iteration entered made its optimiser step and showed its loss to the
    stopper, and without a stop signal all of [range(num_iterations)] ran. *)
Theorem train_fn_iterations_in_order
    {torch : Transitions.Torch} {early : Stopper}
    (learning_rate : float) (num_iterations batch_size : Z)
    (wandb_loss_name : option string) (buffer : Transitions.replay_buffer)
    (w : Transitions.World) (s : stopper)
    (Hsome : Transitions.early_stopper w = Some s) :
  let r := Transitions.train_fn learning_rate num_iterations batch_size
             wandb_loss_name buffer w in
  Transitions.iterations (Py.events r) `prefix_of` Py.range num_iterations
  /\ Transitions.optimizer_steps (Py.events r)
       `prefix_of` Transitions.iterations (Py.events r)
  /\ Transitions.early_stopper (Py.final r)
     = Some (Transitions.fed (stopper_reset s) (Transitions.consulted (Py.events r)))
  /\ (Py.outcome r = Py.Ok tt ->
      Transitions.optimizer_steps (Py.events r) = Transitions.iterations (Py.events r)
      /\ length (Transitions.consulted (Py.events r))
         = length (Transitions.iterations (Py.events r)))
  /\ (Py.outcome r = Py.Ok tt ->
      Forall (fun ev => ~ Transitions.is_signal ev) (Py.events r) ->
      Transitions.iterations (Py.events r) = Py.range num_iterations).
Proof.
  intros r. subst r. unfold Transitions.train_fn.
  cbv beta iota zeta delta [Py.bind Py.ret Py.emit Py.raise Py.modify Py.gets].
  rewrite Hsome.
  set (w1 := {| Transitions.network := Transitions.network w;
                Transitions.early_stopper := Some (stopper_reset s) |}).
  pose proof (for_iterations_facts learning_rate batch_size wandb_loss_name buffer
                (Py.range num_iterations) w1) as (F1 & _).
  pose proof (for_iterations_state learning_rate batch_size wandb_loss_name buffer
                (Py.range num_iterations) w1 (stopper_reset s) eq_refl)
    as (S1 & S2 & S3 & S4).
  cbv zeta in *.
  destruct (Transitions.for_iterations _ (Py.range num_iterations) w1) as [[w2 l2] r2].
  cbn [Py.events Py.outcome Py.final fst snd app] in *.
  split_conj; assumption.
Qed.

Lemma train_fn_iterations_in_order_witness :
  Transitions.iterations
    (Py.events (@Transitions.train_fn Toy.torch Toy.silent 0.01%float 3 64 None
                  [1%float]
                  (@Transitions.mkWorld Toy.torch Toy.silent 0 (Some tt))))
  = [0; 1; 2].
Proof.
  refine (proj2 (proj2 (proj2 (proj2
    (@train_fn_iterations_in_order Toy.torch Toy.silent 0.01%float 3 64 None
       [1%float] (@Transitions.mkWorld Toy.torch Toy.silent 0 (Some tt)) tt
       eq_refl)))) _ _).
  - vm_compute. reflexivity.
  - vm_compute. repeat constructor; intros [].
Defined.


(** ** More on the reinforcement-learning driver *)

Lemma split_unique {A : Type} (P : A -> Prop) (l1 l2 pre post : list A) (x y : A) :
  Forall (fun z => ~ P z) l1 -> Forall (fun z => ~ P z) l2 -> P y ->
  l1 ++ x :: l2 = pre ++ y :: post ->
  pre = l1 /\ y = x /\ post = l2.
Proof.
  intros H1 H2 Hy. revert pre. induction H1 as [|a l1 Ha H1 IH]; intros pre Heq.
  - destruct pre as [|p pre]; cbn in Heq.
    + injection Heq as -> ->. auto.
    + injection Heq as -> ->. rewrite Forall_app, Forall_cons in H2.
      destruct H2 as (_ & H & _). contradiction.
  - destruct pre as [|p pre]; cbn in Heq.
    + injection Heq as -> _. contradiction.
    + injection Heq as -> Heq. destruct (IH pre Heq) as (-> & -> & ->). auto.
Qed.

Section DriverMore.

Context {seeding : Seeding} {environment : RL.Environment} {the_agent : RL.Agent}.

Import RL.

Lemma rl_train_under_accepted_seed (fuel : nat) (cfg : Config) (env0 : env)
    (agent0 : agent) (w : World) (g : rng) :
  set_seed_everywhere (random_seed cfg) (generators w) = (g, Py.Ok tt) ->
  train fuel cfg env0 agent0 w
  = train_after_seed fuel cfg env0 agent0 (set_generators g w).
Proof.
  intros Hs. unfold train. rewrite bind_unfold.
  unfold seed_block, Py.try_except, call_set_seed. rewrite Hs.
  destruct (train_after_seed fuel cfg env0 agent0 (set_generators g w)) as [[w3 l3] r3].
  reflexivity.
Qed.

Lemma rl_train_after_seed_eq (fuel : nat) (cfg : Config) (env0 : env)
    (agent0 : agent) (w : World) :
  let w1 := set_cudnn (Py.setattr "benchmark" false
                         (Py.setattr "determinstic" true (cudnn w))) w in
  let o := {| the_env := env0; agent_state := agent0;
              replay_buffer :=
                buffer_new
                  ((num_train_episodes cfg
                    * (episode_length cfg / env_action_repeat cfg)) / Z.max 1 4)
                  (batch_size cfg);
              global_step := 0 |} in
  let lp := for_episodes fuel cfg (Py.range (num_train_episodes cfg)) o w1 in
  train_after_seed fuel cfg env0 agent0 w =
  if env_action_repeat cfg =? 0 then (w1, [], Py.Raise Py.ZeroDivisionError)
  else if bool_decide (observation_shape = []) || bool_decide (action_shape = [])
  then (w1, [], Py.Raise Py.IndexError)
  else (Py.final lp,
        (if wandb_use_wandb cfg then [WandbInit] else []) ++ Py.events lp,
        match Py.outcome lp with
        | Py.Ok _ => Py.Ok tt
        | Py.Raise e => Py.Raise e
        | Py.Diverge => Py.Diverge
        end).
Proof.
  intros w1 o lp. subst lp.
  unfold train_after_seed, set_backend_flags, Py.floordiv, first_dim.
  rl_unfold. fold w1.
  destruct (env_action_repeat cfg =? 0); [reflexivity|].
  destruct observation_shape as [|d1 s1]; [reflexivity|].
  destruct action_shape as [|d2 s2]; [reflexivity|].
  fold o. rewrite !bool_decide_eq_false_2 by discriminate. cbn [orb].
  destruct (wandb_use_wandb cfg); cbn beta iota;
    destruct (for_episodes fuel cfg (Py.range (num_train_episodes cfg)) o w1)
      as [[w2 l2] r2];
    cbn [Py.events Py.outcome Py.final fst snd] in *;
    destruct r2; cbn; rewrite ?app_nil_r; reflexivity.
Qed.

(** *** Counting steps *)

Lemma steps_of_app (e : Z) (l1 l2 : list (event action)) :
  steps_of e (l1 ++ l2) = steps_of e l1 + steps_of e l2.
Proof.
  unfold steps_of, stepped. rewrite omap_app, filter_app, length_app. lia.
Qed.

Lemma steps_of_all (e : Z) (l : list (event action)) :
  Forall (fun p => p.1 = e) (stepped l) ->
  steps_of e l = Z.of_nat (length (stepped l)).
Proof.
  unfold steps_of. intros H. induction H as [|p ps Hp H IH]; [reflexivity|].
  rewrite filter_cons_True by exact Hp. cbn [length]. lia.
Qed.

Lemma steps_of_other (e : Z) (l : list (event action)) :
  Forall (fun p => p.1 <> e) (stepped l) -> steps_of e l = 0.
Proof.
  unfold steps_of. intros H. induction H as [|p ps Hp H IH]; [reflexivity|].
  rewrite filter_cons_False by exact Hp. exact IH.
Qed.

Lemma choose_action_objects (cfg : Config) (ep : Z)
    (ts : TimeStep observation action) (o : Objects) (w : World) :
  exists a o1,
    Py.outcome (choose_action cfg ep ts o w) = Py.Ok (a, o1)
    /\ the_env o1 = the_env o /\ global_step o1 = global_step o
    /\ replay_buffer o1 = replay_buffer o.
Proof.
  unfold choose_action.
  destruct (ep <? init_random_episodes cfg).
  - rl_unfold.
    destruct (np_uniform (-1) 1 action_shape action_dtype (generators w)) as [a g1].
    exists a, o. cbn. auto.
  - rl_unfold. cbn [generators].
    destruct (select_action (ts_observation ts) false
                match step_type ts with FIRST => true | _ => false end
                (backend_noise w (backend_calls w)) (agent_state o, generators w))
      as [a [ag g1]].
    eexists a, _. cbn. auto.
Qed.

Lemma collect_account (cfg : Config) (ep : Z) (fuel : nat) :
  forall (ts : TimeStep observation action) (o : Objects) (rew : float) (t : Z)
         (w : World),
  let r := collect fuel cfg ep ts o rew t w in
  buffer_adds (Py.events r) = (stepped (Py.events r)).*1
  /\ Forall (fun p => p.1 = ep) (stepped (Py.events r))
  /\ (forall o2 t', Py.outcome r = Py.Ok (o2, t') ->
      t' = t + Z.of_nat (length (stepped (Py.events r)))
      /\ global_step o2 = global_step o + Z.of_nat (length (stepped (Py.events r))))
  /\ (Py.outcome r = Py.Diverge \/ exists v, Py.outcome r = Py.Ok v).
Proof.
  induction fuel as [|fuel IH]; intros ts o rew t w r; subst r.
  - cbn [collect]. destruct (last ts); cbn; split_conj; eauto.
    + intros o2 t' [= <- <-]. lia.
    + discriminate.
  - destruct (last ts) eqn:Hlast.
    { cbn [collect]. rewrite Hlast. cbn. split_conj; eauto.
      intros o2 t' [= <- <-]. lia. }
    rewrite collect_step by exact Hlast.
    pose proof (choose_action_facts cfg ep ts o w)
      as (a & o1 & src & Ho & He & _).
    pose proof (choose_action_objects cfg ep ts o w) as (a' & o1' & Ho' & _ & Hg & _).
    cbv zeta in *. rewrite Ho in Ho'. injection Ho' as <- <-.
    destruct (choose_action cfg ep ts o w) as [[w1 l1] r1] eqn:Hch.
    cbn [Py.events Py.outcome Py.final fst snd] in *. subst l1 r1.
    cbv zeta.
    set (ts1 := fst (env_step a (the_env o1))).
    set (o2 := {| the_env := snd (env_step a (the_env o1));
                  agent_state := agent_state o1;
                  replay_buffer := _; global_step := global_step o1 + 1 |}).
    specialize (IH ts1 o2 (PrimFloat.add rew (ts_reward ts1)) (t + 1) w1).
    cbv zeta in IH. destruct IH as (I1 & I2 & I3 & I4).
    cbn [Py.events Py.outcome Py.final fst snd].
    split_conj.
    + unfold buffer_adds, stepped in *. cbn. f_equal. exact I1.
    + unfold stepped in *. cbn. constructor; [reflexivity|exact I2].
    + intros o3 t' H. destruct (I3 o3 t' H) as (-> & ->).
      unfold stepped. cbn [app omap list_omap length global_step o2].
      rewrite Hg. lia.
    + exact I4.
Qed.

Lemma episode_shape (fuel : nat) (cfg : Config) (ep : Z) (o : Objects) (w : World) :
  let ts := fst (env_reset (the_env o)) in
  let o1 := {| the_env := snd (env_reset (the_env o)); agent_state := agent_state o;
               replay_buffer := replay_buffer o; global_step := global_step o |} in
  let c := collect fuel cfg ep ts o1 0%float 0 w in
  let head := [LoggerInfo "Episode | Collecting data"; EnvReset ep] ++ Py.events c in
  match Py.outcome c with
  | Py.Ok (o2, t) =>
      exists o3 w3,
        episode fuel cfg ep o w
        = (w3,
           head ++ [Collected ep t; LoggerInfo "TRAINING | Episode | Reward"]
           ++ (if wandb_use_wandb cfg
               then [WandbLog "train/" (global_step o2 * env_action_repeat cfg)]
               else [])
           ++ (if init_random_episodes cfg <=? ep
               then [LoggerInfo "Training agent"; AgentTrain ep] else []),
           Py.Ok o3)
        /\ global_step o3 = global_step o2
  | Py.Raise e => episode fuel cfg ep o w = (Py.final c, head, Py.Raise e)
  | Py.Diverge => episode fuel cfg ep o w = (Py.final c, head, Py.Diverge)
  end.
Proof.
  intros ts o1 c head. subst head c. unfold episode.
  destruct (env_reset (the_env o)) as [ts' e1] eqn:Hr. cbn [fst snd] in *.
  subst ts. fold o1. rl_unfold.
  destruct (collect fuel cfg ep ts' o1 0%float 0 w) as [[w1 l1] [[o2 t]|e|]];
    cbn [Py.events Py.outcome Py.final fst snd app]; try reflexivity.
  destruct (init_random_episodes cfg <=? ep).
  - destruct (wandb_use_wandb cfg); cbn;
      match goal with
      | |- context [agent_train ?b ?n ?s] => destruct (agent_train b n s) as [ag g1]
      end; cbn; rewrite <- ?app_assoc; cbn; eauto.
  - destruct (wandb_use_wandb cfg); cbn; rewrite ?app_nil_r; eauto.
Qed.

Lemma no_split {A : Type} (P : A -> Prop) (l pre post : list A) (y : A) :
  Forall (fun z => ~ P z) l -> P y -> l <> pre ++ y :: post.
Proof.
  intros H Hy ->. rewrite Forall_app, Forall_cons in H.
  destruct H as (_ & H & _). contradiction.
Qed.

Lemma steps_log_nothing (ep : Z) (l : list (event action)) :
  Forall (is_step_of ep) l ->
  Forall (fun ev => ~ is_wandb_log ev) l
  /\ reset_episodes l = [] /\ collected l = [] /\ trained_episodes l = [].
Proof.
  induction 1 as [|ev l Hev H (I1 & I2 & I3 & I4)]; [cbn; auto|].
  destruct ev; cbn in *; try contradiction; auto.
Qed.

(** What an episode shows of its steps. *)
Lemma episode_account (fuel : nat) (cfg : Config) (ep : Z) (o : Objects) (w : World) :
  let r := episode fuel cfg ep o w in
  let n := Z.of_nat (length (stepped (Py.events r))) in
  reset_episodes (Py.events r) = [ep]
  /\ buffer_adds (Py.events r) = (stepped (Py.events r)).*1
  /\ Forall (fun p => p.1 = ep) (stepped (Py.events r))
  /\ (forall e t, (e, t) ∈ collected (Py.events r) -> e = ep /\ t = n)
  /\ (forall o', Py.outcome r = Py.Ok o' ->
      global_step o' = global_step o + n
      /\ collected (Py.events r) = [(ep, n)]
      /\ trained_episodes (Py.events r)
         = if init_random_episodes cfg <=? ep then [ep] else [])
  /\ (forall pre post k s, Py.events r = pre ++ WandbLog k s :: post ->
      s = (global_step o + Z.of_nat (length (stepped pre))) * env_action_repeat cfg)
  /\ (Py.outcome r = Py.Diverge \/ exists v, Py.outcome r = Py.Ok v).
Proof.
  intros r n. subst n r.
  pose proof (episode_shape fuel cfg ep o w) as Hsh. cbv zeta in Hsh.
  set (o1 := {| the_env := snd (env_reset (the_env o)); agent_state := agent_state o;
                replay_buffer := replay_buffer o; global_step := global_step o |}) in *.
  set (ts := fst (env_reset (the_env o))) in *.
  pose proof (collect_facts cfg ep fuel ts o1 0%float 0 w) as (C1 & _).
  pose proof (collect_account cfg ep fuel ts o1 0%float 0 w) as (K1 & K2 & K3 & K4).
  cbv zeta in *.
  destruct (steps_log_nothing ep _ C1) as (N1 & N2 & N3 & N4).
  set (c := collect fuel cfg ep ts o1 0%float 0 w) in *.
  assert (Hhead : forall tl,
             stepped tl = [] ->
             stepped ([LoggerInfo "Episode | Collecting data"; EnvReset ep]
                        ++ Py.events c ++ tl) = stepped (Py.events c)).
  { intros tl Htl. unfold stepped in *. cbn. rewrite omap_app, Htl, app_nil_r.
    reflexivity. }
  destruct (Py.outcome c) as [[o2 t]| |] eqn:Hc.
  2:{ destruct K4 as [K4|[v K4]]; discriminate. }
  2:{ rewrite Hsh. cbn [Py.events Py.outcome Py.final fst snd].
      change (stepped ([LoggerInfo "Episode | Collecting data"; EnvReset ep]
                         ++ Py.events c)) with (stepped (Py.events c)).
      unfold reset_episodes, buffer_adds, collected in *. cbn.
      rewrite ?omap_app, ?N2, ?N3, ?K1. cbn. rewrite ?app_nil_r.
      split_conj; auto; try discriminate.
      - intros e t' H. apply elem_of_nil in H. contradiction.
      - intros pre post k s H. exfalso. revert H.
        apply (no_split is_wandb_log); [|exact I].
        repeat (apply Forall_cons_2; [cbn; auto|]). exact N1. }
  destruct Hsh as (o3 & w3 & Hsh & Hg). rewrite Hsh.
  cbn [Py.events Py.outcome Py.final fst snd].
  destruct (K3 o2 t eq_refl) as (Kt & Kg). cbn [global_step o1] in Kg.
  rewrite <- app_assoc.
  assert (Hst : forall X, stepped ([Collected ep t; LoggerInfo "TRAINING | Episode | Reward"]
                   ++ (if wandb_use_wandb cfg then [WandbLog "train/" X] else [])
                   ++ (if init_random_episodes cfg <=? ep
                       then [LoggerInfo "Training agent"; AgentTrain ep] else [])) = []).
  { intros X. destruct (wandb_use_wandb cfg), (init_random_episodes cfg <=? ep);
      reflexivity. }
  rewrite Hhead by apply Hst.
  split_conj.
  - unfold reset_episodes in *. cbn. rewrite !omap_app, N2.
    destruct (wandb_use_wandb cfg), (init_random_episodes cfg <=? ep); reflexivity.
  - unfold buffer_adds in *. cbn. rewrite !omap_app, K1.
    destruct (wandb_use_wandb cfg), (init_random_episodes cfg <=? ep); cbn;
      rewrite app_nil_r; reflexivity.
  - exact K2.
  - intros e t'. unfold collected in *. cbn. rewrite !omap_app, N3.
    destruct (wandb_use_wandb cfg), (init_random_episodes cfg <=? ep); cbn;
      intros H;
      (apply elem_of_cons in H as [H|H];
       [injection H as -> ->; split; lia | apply elem_of_nil in H; contradiction]).
  - intros o' [= <-]. split_conj.
    + lia.
    + unfold collected in *. cbn. rewrite !omap_app, N3.
      destruct (wandb_use_wandb cfg), (init_random_episodes cfg <=? ep); cbn;
        do 2 f_equal; lia.
    + unfold trained_episodes in *. cbn. rewrite !omap_app, N4.
      destruct (wandb_use_wandb cfg), (init_random_episodes cfg <=? ep); reflexivity.
  - intros pre post k s H.
    destruct (wandb_use_wandb cfg).
    + assert (Hre : forall (x : event action) tl,
                 [LoggerInfo "Episode | Collecting data"; EnvReset ep] ++ Py.events c
                   ++ [Collected ep t; LoggerInfo "TRAINING | Episode | Reward"]
                   ++ [x] ++ tl
                 = ([LoggerInfo "Episode | Collecting data"; EnvReset ep] ++ Py.events c
                      ++ [Collected ep t; LoggerInfo "TRAINING | Episode | Reward"])
                   ++ x :: tl).
      { intros x tl. cbn. rewrite <- app_assoc. reflexivity. }
      rewrite Hre in H.
      apply (split_unique is_wandb_log) in H as (-> & [= -> ->] & _).
      * rewrite Hhead by reflexivity. rewrite Kg. reflexivity.
      * repeat (apply Forall_cons_2; [cbn; auto|]). apply Forall_app.
        split; [exact N1|]. repeat (apply Forall_cons_2; [cbn; auto|]). constructor.
      * destruct (init_random_episodes cfg <=? ep);
          repeat (apply Forall_cons_2; [cbn; auto|]); constructor.
      * exact I.
    + exfalso. revert H. apply (no_split is_wandb_log); [|exact I].
      repeat (apply Forall_cons_2; [cbn; auto|]). apply Forall_app. split; [exact N1|].
      destruct (init_random_episodes cfg <=? ep);
        repeat (apply Forall_cons_2; [cbn; auto|]); constructor.
  - right. eauto.
Qed.

Lemma for_episodes_account (fuel : nat) (cfg : Config) (episodes : list Z) :
  NoDup episodes ->
  forall (o : Objects) (w : World),
  let r := for_episodes fuel cfg episodes o w in
  reset_episodes (Py.events r) `prefix_of` episodes
  /\ buffer_adds (Py.events r) = (stepped (Py.events r)).*1
  /\ Forall (fun p => p.1 ∈ episodes) (stepped (Py.events r))
  /\ (forall e t, (e, t) ∈ collected (Py.events r) ->
      e ∈ episodes /\ t = steps_of e (Py.events r))
  /\ (forall o', Py.outcome r = Py.Ok o' ->
      global_step o' = global_step o + Z.of_nat (length (stepped (Py.events r)))
      /\ reset_episodes (Py.events r) = episodes
      /\ (collected (Py.events r)).*1 = episodes
      /\ trained_episodes (Py.events r)
         = filter (fun e => init_random_episodes cfg <= e) episodes)
  /\ (forall pre post k s, Py.events r = pre ++ WandbLog k s :: post ->
      s = (global_step o + Z.of_nat (length (stepped pre))) * env_action_repeat cfg)
  /\ (Py.outcome r = Py.Diverge \/ exists v, Py.outcome r = Py.Ok v).
Proof.
  induction episodes as [|ep rest IH]; intros Hnd o w r; subst r.
  { cbn. split_conj; eauto; try done.
    - intros e t H. apply elem_of_nil in H. contradiction.
    - intros o' [= <-]. split_conj; auto. lia.
    - intros [|] post k s H; discriminate. }
  apply NoDup_cons in Hnd as [Hnotin Hnd].
  rewrite for_episodes_cons.
  pose proof (episode_account fuel cfg ep o w) as (A1 & A2 & A3 & A4 & A5 & A6 & A7).
  cbv zeta in *.
  assert (A3' : Forall (fun p => p.1 ∈ ep :: rest)
                  (stepped (Py.events (episode fuel cfg ep o w)))).
  { eapply Forall_impl; [exact A3|]. intros p ->. left. }
  assert (A4' : forall e t, (e, t) ∈ collected (Py.events (episode fuel cfg ep o w)) ->
                  e ∈ ep :: rest /\ t = steps_of e (Py.events (episode fuel cfg ep o w))).
  { intros e t H. destruct (A4 e t H) as (-> & ->). split; [left|].
    symmetry. apply steps_of_all. exact A3. }
  destruct (episode fuel cfg ep o w) as [[w1 l1] [o1|e|]];
    cbn [Py.events Py.outcome Py.final fst snd] in *.
  2,3: rewrite app_nil_r; split_conj; try assumption; try discriminate;
       first [ rewrite A1; apply prefix_cons, prefix_nil
             | destruct A7 as [A7|[v A7]]; first [discriminate | eauto] ].
  destruct (A5 o1 eq_refl) as (G1 & G2 & G3).
  specialize (IH Hnd o1 w1). cbv zeta in IH.
  destruct IH as (I1 & I2 & I3 & I4 & I5 & I6 & I7).
  destruct (for_episodes fuel cfg rest o1 w1) as [[w2 l2] r2].
  cbn [Py.events Py.outcome Py.final fst snd] in *.
  assert (Hl1 : forall e, e ∈ rest -> steps_of e l1 = 0).
  { intros e He. apply steps_of_other. eapply Forall_impl; [exact A3|].
    intros p -> <-. contradiction. }
  assert (Hl2 : steps_of ep l2 = 0).
  { apply steps_of_other. eapply Forall_impl; [exact I3|].
    intros p Hp <-. contradiction. }
  split_conj.
  - unfold reset_episodes in *. rewrite omap_app, A1. cbn. apply prefix_cons. exact I1.
  - unfold buffer_adds, stepped in *. rewrite !omap_app, fmap_app, A2, I2. reflexivity.
  - unfold stepped in *. rewrite omap_app. apply Forall_app. split; [exact A3'|].
    eapply Forall_impl; [exact I3|]. intros p Hp. right. exact Hp.
  - intros e t. unfold collected in *. rewrite omap_app, elem_of_app.
    intros [H|H].
    + destruct (A4 e t H) as (-> & ->). split; [left|].
      rewrite steps_of_app, Hl2, (steps_of_all ep l1 A3). lia.
    + destruct (I4 e t H) as (He & ->). split; [right; exact He|].
      rewrite steps_of_app, (Hl1 e He). lia.
  - intros o' H. destruct (I5 o' H) as (J1 & J2 & J3 & J4).
    unfold stepped, reset_episodes, collected, trained_episodes in *.
    rewrite !omap_app, length_app, fmap_app, A1, J2, J3, J4, G2, G3. cbn [fmap list_fmap fst].
    split_conj; try reflexivity; [lia|].
    destruct (Z.leb_spec (init_random_episodes cfg) ep) as [Hle|Hgt].
    + rewrite filter_cons_True by exact Hle. reflexivity.
    + rewrite filter_cons_False by lia. reflexivity.
  - intros pre post k s Heq.
    apply app_eq_cons_split in Heq as [(mid & H1 & ->)|(pre' & -> & H2)].
    + exact (A6 pre mid k s H1).
    + rewrite (I6 pre' post k s H2). unfold stepped. rewrite omap_app, length_app.
      fold (stepped l1). fold (stepped pre'). f_equal. lia.
  - exact I7.
Qed.

(** The log of [train] is empty, or it is the log of the loop over the
    episodes after the start of the wandb run. *)
Lemma rl_train_log (fuel : nat) (cfg : Config) (env0 : env) (agent0 : agent)
    (w : World) :
  let r := train fuel cfg env0 agent0 w in
  (Py.events r = [] /\ forall v, Py.outcome r <> Py.Ok v)
  \/ (exists (w1 : World) (o : Objects),
        let lp := for_episodes fuel cfg (Py.range (num_train_episodes cfg)) o w1 in
        global_step o = 0
        /\ Py.events r = (if wandb_use_wandb cfg then [WandbInit] else []) ++ Py.events lp
        /\ Py.outcome r = match Py.outcome lp with
                          | Py.Ok _ => Py.Ok tt
                          | Py.Raise e => Py.Raise e
                          | Py.Diverge => Py.Diverge
                          end).
Proof.
  intros r. subst r. unfold train. rewrite bind_unfold.
  pose proof (rl_seed_block_run cfg w) as (S1 & _). cbv zeta in *.
  destruct (seed_block cfg w) as [[w0 l0] [[]|e|]];
    cbn [Py.events Py.final fst snd] in *; subst l0;
    [|left; split; [reflexivity|discriminate]..].
  rewrite rl_train_after_seed_eq.
  destruct (env_action_repeat cfg =? 0);
    [left; cbn; split; [reflexivity|discriminate]|].
  destruct (bool_decide (observation_shape = []) || bool_decide (action_shape = []));
    [left; cbn; split; [reflexivity|discriminate]|].
  right. eexists _, _. cbv zeta. cbn [Py.events Py.outcome fst snd app].
  split; [|split; reflexivity]. reflexivity.
Qed.

(** *** Episodes that end, and episodes that do not *)

Lemma collect_ends (cfg : Config) (ep : Z) (k : nat) :
  forall (fuel : nat) (ts : TimeStep observation action) (o : Objects)
         (rew : float) (t : Z) (w : World),
  ends_within k ts (the_env o) -> (k <= fuel)%nat ->
  collect fuel cfg ep ts o rew t w = collect k cfg ep ts o rew t w
  /\ exists v, Py.outcome (collect k cfg ep ts o rew t w) = Py.Ok v.
Proof.
  induction k as [|k IH]; intros fuel ts o rew t w Hends Hle.
  - destruct Hends as [Hlast|[]].
    destruct fuel; cbn [collect]; rewrite Hlast; cbn; eauto.
  - destruct (last ts) eqn:Hlast.
    { destruct fuel; cbn [collect]; rewrite Hlast; cbn; eauto. }
    destruct Hends as [Hl|Hends]; [congruence|].
    destruct fuel as [|fuel]; [lia|].
    rewrite !collect_step by exact Hlast.
    pose proof (choose_action_objects cfg ep ts o w) as (a & o1 & Ho & He & _).
    destruct (choose_action cfg ep ts o w) as [[w1 l1] r1].
    cbn [Py.outcome snd] in Ho. subst r1. cbv zeta.
    match goal with
    | |- context [collect fuel cfg ep ?ts1 ?o2 ?rew1 ?t1 w1] =>
        destruct (IH fuel ts1 o2 rew1 t1 w1) as (E & v & Hv);
        [cbn [the_env]; rewrite He; apply Hends | lia | rewrite E, Hv]
    end.
    split; [reflexivity|]. exists v. reflexivity.
Qed.

Lemma episode_ends (cfg : Config) (ep : Z) (k fuel : nat) (o : Objects) (w : World) :
  (forall e, ends_within k (fst (env_reset e)) (snd (env_reset e))) ->
  (k <= fuel)%nat ->
  episode fuel cfg ep o w = episode k cfg ep o w
  /\ exists o', Py.outcome (episode k cfg ep o w) = Py.Ok o'.
Proof.
  intros Hends Hle.
  set (o1 := {| the_env := snd (env_reset (the_env o)); agent_state := agent_state o;
                replay_buffer := replay_buffer o; global_step := global_step o |}).
  destruct (collect_ends cfg ep k fuel (fst (env_reset (the_env o))) o1 0%float 0 w
              (Hends (the_env o)) Hle) as (E & v & Hv).
  split.
  - unfold episode. destruct (env_reset (the_env o)) as [ts e1]. cbn [fst snd] in *.
    fold o1. rewrite !bind_unfold. unfold logger_info, Py.emit at 1 3.
    rewrite !(bind_unfold (Py.emit (EnvReset ep))). unfold Py.emit at 1 3.
    rewrite !(bind_unfold (collect _ _ _ _ _ _ _)), E. reflexivity.
  - pose proof (episode_shape k cfg ep o w) as Hsh. cbv zeta in Hsh. fold o1 in Hsh.
    rewrite Hv in Hsh. destruct v as [o2 t]. destruct Hsh as (o3 & w3 & -> & _).
    eauto.
Qed.

Lemma for_episodes_ends (cfg : Config) (k fuel : nat) (episodes : list Z) :
  (forall e, ends_within k (fst (env_reset e)) (snd (env_reset e))) ->
  (k <= fuel)%nat ->
  forall (o : Objects) (w : World),
  for_episodes fuel cfg episodes o w = for_episodes k cfg episodes o w
  /\ exists o', Py.outcome (for_episodes k cfg episodes o w) = Py.Ok o'.
Proof.
  intros Hends Hle. induction episodes as [|ep rest IH]; intros o w.
  { cbn. eauto. }
  rewrite !for_episodes_cons.
  destruct (episode_ends cfg ep k fuel o w Hends Hle) as (-> & o1 & Ho).
  destruct (episode k cfg ep o w) as [[w1 l1] r1]. cbn [Py.outcome snd] in Ho. subst r1.
  cbv zeta. destruct (IH o1 w1) as (-> & o' & ->). eauto.
Qed.

Lemma collect_endless (cfg : Config) (ep : Z) (fuel : nat) :
  (forall a e, last (fst (env_step a e)) = false) ->
  forall (ts : TimeStep observation action) (o : Objects) (rew : float) (t : Z)
         (w : World),
  last ts = false ->
  Py.outcome (collect fuel cfg ep ts o rew t w) = Py.Diverge
  /\ length (stepped (Py.events (collect fuel cfg ep ts o rew t w))) = fuel.
Proof.
  intros Hstep. induction fuel as [|fuel IH]; intros ts o rew t w Hlast.
  - cbn [collect]. rewrite Hlast. cbn. auto.
  - rewrite collect_step by exact Hlast.
    pose proof (choose_action_facts cfg ep ts o w) as (a & o1 & src & Ho & He & _).
    cbv zeta in *.
    destruct (choose_action cfg ep ts o w) as [[w1 l1] r1].
    cbn [Py.events Py.outcome fst snd] in *. subst l1 r1. cbv zeta.
    match goal with
    | |- context [collect fuel cfg ep ?ts1 ?o2 ?rew1 ?t1 w1] =>
        destruct (IH ts1 o2 rew1 t1 w1 (Hstep _ _)) as (E1 & E2)
    end.
    cbn [Py.events Py.outcome fst snd]. split; [exact E1|].
    unfold stepped in *. cbn. rewrite E2. reflexivity.
Qed.

End DriverMore.

(** X11: with [cfg.env.action_repeat] equal to 0 the driver raises
    [ZeroDivisionError] at line 42, whatever the fuel granted to its loops:
    the environment is never reset, no action is chosen and nothing is
    logged. *)
Theorem driver_raises_on_zero_action_repeat
    {seeding : Seeding} {environment : RL.Environment} {the_agent : RL.Agent}
    (fuel : nat) (cfg : RL.Config) (env0 : RL.env) (agent0 : RL.agent)
    (w : RL.World) (g : rng)
    (Hseed : set_seed_everywhere (RL.random_seed cfg) (RL.generators w) = (g, Py.Ok tt))
    (Hrep : RL.env_action_repeat cfg = 0) :
  Py.outcome (RL.train fuel cfg env0 agent0 w) = Py.Raise Py.ZeroDivisionError
  /\ Py.events (RL.train fuel cfg env0 agent0 w) = [].
Proof.
  rewrite (rl_train_under_accepted_seed fuel cfg env0 agent0 w g Hseed).
  rewrite rl_train_after_seed_eq, Hrep. cbn. auto.
Qed.

Lemma driver_raises_on_zero_action_repeat_witness :
  Py.outcome
    (@RL.train Toy.seeding Toy.environment Toy.agent 5
       {| RL.random_seed := 42; RL.num_train_episodes := 3;
          RL.init_random_episodes := 2; RL.episode_length := 2;
          RL.env_action_repeat := 0; RL.batch_size := 64;
          RL.wandb_use_wandb := true |}
       0 tt (Toy.rl_world 7 (fun _ => 0)))
  = Py.Raise Py.ZeroDivisionError.
Proof.
  refine (proj1 (@driver_raises_on_zero_action_repeat Toy.seeding Toy.environment
                   Toy.agent 5 _ 0 tt (Toy.rl_world 7 (fun _ => 0)) 42 _ _));
    reflexivity.
Defined.

(** X12: when the observations or the actions of the environment are
    scalars (a shape that is the empty tuple), the driver raises
    [IndexError] at lines 48-51, before the wandb run starts and before any
    episode. *)
Theorem driver_raises_on_scalar_spec
    {seeding : Seeding} {environment : RL.Environment} {the_agent : RL.Agent}
    (fuel : nat) (cfg : RL.Config) (env0 : RL.env) (agent0 : RL.agent)
    (w : RL.World) (g : rng)
    (Hseed : set_seed_everywhere (RL.random_seed cfg) (RL.generators w) = (g, Py.Ok tt))
    (Hrep : RL.env_action_repeat cfg <> 0)
    (Hshape : RL.observation_shape = [] \/ RL.action_shape = []) :
  Py.outcome (RL.train fuel cfg env0 agent0 w) = Py.Raise Py.IndexError
  /\ Py.events (RL.train fuel cfg env0 agent0 w) = [].
Proof.
  rewrite (rl_train_under_accepted_seed fuel cfg env0 agent0 w g Hseed).
  rewrite rl_train_after_seed_eq.
  apply Z.eqb_neq in Hrep. rewrite Hrep.
  replace (bool_decide (RL.observation_shape = []) || bool_decide (RL.action_shape = []))
    with true; [cbn; auto|].
  symmetry. apply orb_true_iff.
  destruct Hshape as [H|H]; [left|right]; apply bool_decide_eq_true_2; exact H.
Qed.

Lemma driver_raises_on_scalar_spec_witness :
  Py.outcome
    (@RL.train Toy.seeding Toy.scalar_environment
       (Toy.agent_of Toy.scalar_environment (fun x => x) (fun x => x))
       5 (Toy.rl_cfg 42) 0 tt
       (@RL.mkWorld Toy.seeding 7 ∅ (fun _ => 0) 0))
  = Py.Raise Py.IndexError.
Proof.
  refine (proj1 (@driver_raises_on_scalar_spec Toy.seeding Toy.scalar_environment
                   (Toy.agent_of Toy.scalar_environment (fun x => x) (fun x => x))
                   5 (Toy.rl_cfg 42) 0 tt
                   (@RL.mkWorld Toy.seeding 7 ∅ (fun _ => 0) 0) 42 _ _ _)).
  - reflexivity.
  - discriminate.
  - left. reflexivity.
Defined.


(** X14: the driver resets the environment once per episode, for the
    episodes 0, 1, 2, ... in order, a prefix of
    [range(cfg.num_train_episodes)]; and when it returns, every episode of
    the range was reset and collected, in order, and the agent was trained
    after exactly the episodes from [cfg.init_random_episodes] on. *)
Theorem driver_runs_episodes_in_order
    {seeding : Seeding} {environment : RL.Environment} {the_agent : RL.Agent}
    (fuel : nat) (cfg : RL.Config) (env0 : RL.env) (agent0 : RL.agent)
    (w : RL.World) :
  let r := RL.train fuel cfg env0 agent0 w in
  RL.reset_episodes (Py.events r) `prefix_of` Py.range (RL.num_train_episodes cfg)
  /\ (Py.outcome r = Py.Ok tt ->
      RL.reset_episodes (Py.events r) = Py.range (RL.num_train_episodes cfg)
      /\ (RL.collected (Py.events r)).*1 = Py.range (RL.num_train_episodes cfg)
      /\ RL.trained_episodes (Py.events r)
         = filter (fun e => RL.init_random_episodes cfg <= e)
             (Py.range (RL.num_train_episodes cfg))).
Proof.
  intros r.
  destruct (rl_train_log fuel cfg env0 agent0 w) as [[H Hno]|(w1 & o & Hlog)];
    fold r in H, Hno || fold r in Hlog.
  { rewrite H. split; [apply prefix_nil|]. intros Hok. destruct (Hno tt Hok). }
  cbv zeta in Hlog. destruct Hlog as (Hg & He & Ho).
  pose proof (for_episodes_account fuel cfg (Py.range (RL.num_train_episodes cfg))
                (NoDup_range _) o w1) as (B1 & _ & _ & _ & B5 & _).
  cbv zeta in *. rewrite He, Ho.
  set (lp := RL.for_episodes fuel cfg (Py.range (RL.num_train_episodes cfg)) o w1) in *.
  assert (Hr : RL.reset_episodes ((if RL.wandb_use_wandb cfg then [RL.WandbInit] else [])
                                    ++ Py.events lp) = RL.reset_episodes (Py.events lp)
               /\ RL.collected ((if RL.wandb_use_wandb cfg then [RL.WandbInit] else [])
                                  ++ Py.events lp) = RL.collected (Py.events lp)
               /\ RL.trained_episodes ((if RL.wandb_use_wandb cfg then [RL.WandbInit] else [])
                                  ++ Py.events lp) = RL.trained_episodes (Py.events lp)).
  { destruct (RL.wandb_use_wandb cfg); auto. }
  destruct Hr as (-> & -> & ->). split; [exact B1|].
  destruct (Py.outcome lp) as [o'| |]; try discriminate.
  intros _. destruct (B5 o' eq_refl) as (_ & J2 & J3 & J4). auto.
Qed.

(** X15: when no time step of the environment is ever the last one, the
    driver, once past its set-up, never leaves the collection loop of
    episode 0: whatever the number of turns granted to the loop, the run has
    not ended after them, the environment has made that many steps, all in
    episode 0, and the agent has not been trained. *)
Theorem driver_never_ends_when_an_episode_never_ends
    {seeding : Seeding} {environment : RL.Environment} {the_agent : RL.Agent}
    (fuel : nat) (cfg : RL.Config) (env0 : RL.env) (agent0 : RL.agent)
    (w : RL.World) (g : rng)
    (Hseed : set_seed_everywhere (RL.random_seed cfg) (RL.generators w) = (g, Py.Ok tt))
    (Hrep : RL.env_action_repeat cfg <> 0)
    (Hobs : RL.observation_shape <> []) (Hact : RL.action_shape <> [])
    (Hn : 0 < RL.num_train_episodes cfg)
    (Hreset : forall e, RL.last (fst (RL.env_reset e)) = false)
    (Hstep : forall a e, RL.last (fst (RL.env_step a e)) = false) :
  let r := RL.train fuel cfg env0 agent0 w in
  Py.outcome r = Py.Diverge
  /\ length (RL.stepped (Py.events r)) = fuel
  /\ RL.reset_episodes (Py.events r) = [0]
  /\ Forall (fun p => p.1 = 0) (RL.stepped (Py.events r))
  /\ RL.trained_episodes (Py.events r) = [].
Proof.
  intros r. subst r.
  rewrite (rl_train_under_accepted_seed fuel cfg env0 agent0 w g Hseed).
  rewrite rl_train_after_seed_eq.
  apply Z.eqb_neq in Hrep. rewrite Hrep.
  rewrite !bool_decide_eq_false_2 by assumption. cbn [orb].
  destruct (range_cons _ Hn) as (rest & ->).
  rewrite for_episodes_cons.
  match goal with
  | |- context [RL.episode fuel cfg 0 ?o ?w1] =>
      pose proof (episode_shape fuel cfg 0 o w1) as Hsh;
      pose proof (collect_facts cfg 0 fuel (fst (RL.env_reset (RL.the_env o)))
                    {| RL.the_env := snd (RL.env_reset (RL.the_env o));
                       RL.agent_state := RL.agent_state o;
                       RL.replay_buffer := RL.replay_buffer o;
                       RL.global_step := RL.global_step o |} 0%float 0 w1) as (C1 & _);
      pose proof (collect_account cfg 0 fuel (fst (RL.env_reset (RL.the_env o)))
                    {| RL.the_env := snd (RL.env_reset (RL.the_env o));
                       RL.agent_state := RL.agent_state o;
                       RL.replay_buffer := RL.replay_buffer o;
                       RL.global_step := RL.global_step o |} 0%float 0 w1)
        as (_ & K2 & _);
      pose proof (collect_endless cfg 0 fuel Hstep (fst (RL.env_reset (RL.the_env o)))
                    {| RL.the_env := snd (RL.env_reset (RL.the_env o));
                       RL.agent_state := RL.agent_state o;
                       RL.replay_buffer := RL.replay_buffer o;
                       RL.global_step := RL.global_step o |} 0%float 0 w1
                    (Hreset _)) as (D1 & D2)
  end.
  cbv zeta in *. rewrite D1 in Hsh. rewrite Hsh.
  destruct (steps_log_nothing 0 _ C1) as (_ & N2 & _ & N4).
  cbn [Py.events Py.outcome Py.final fst snd]. rewrite app_nil_r.
  match goal with
  | |- context [Py.events ?c] => set (l := Py.events c) in *
  end.
  assert (Hr : RL.stepped ((if RL.wandb_use_wandb cfg then [RL.WandbInit] else [])
                   ++ [RL.LoggerInfo "Episode | Collecting data"; RL.EnvReset 0] ++ l)
               = RL.stepped l
               /\ RL.reset_episodes ((if RL.wandb_use_wandb cfg then [RL.WandbInit] else [])
                   ++ [RL.LoggerInfo "Episode | Collecting data"; RL.EnvReset 0] ++ l)
                  = 0 :: RL.reset_episodes l
               /\ RL.trained_episodes ((if RL.wandb_use_wandb cfg then [RL.WandbInit] else [])
                   ++ [RL.LoggerInfo "Episode | Collecting data"; RL.EnvReset 0] ++ l)
                  = RL.trained_episodes l).
  { destruct (RL.wandb_use_wandb cfg); auto. }
  destruct Hr as (-> & -> & ->). rewrite N2, N4. auto.
Qed.

Lemma driver_never_ends_when_an_episode_never_ends_witness :
  Py.outcome
    (@RL.train Toy.seeding Toy.endless_environment
       (Toy.agent_of Toy.endless_environment (fun x => x) (fun x => x))
       5 (Toy.rl_cfg 42) 0 tt
       (@RL.mkWorld Toy.seeding 7 ∅ (fun _ => 0) 0))
  = Py.Diverge.
Proof.
  refine (proj1 (@driver_never_ends_when_an_episode_never_ends Toy.seeding
                   Toy.endless_environment
                   (Toy.agent_of Toy.endless_environment (fun x => x) (fun x => x))
                   5 (Toy.rl_cfg 42) 0 tt
                   (@RL.mkWorld Toy.seeding 7 ∅ (fun _ => 0) 0) 42 _ _ _ _ _ _ _)).
  - reflexivity.
  - discriminate.
  - discriminate.
  - discriminate.
  - reflexivity.
  - intros e. reflexivity.
  - intros a e. reflexivity.
Defined.

(** X16: when every episode of the environment ends within [k] steps,
    whatever the actions, the driver, once past its set-up, returns: [k]
    turns of the collection loop are enough for every episode, and more
    turns change nothing of the run. *)
Theorem driver_returns_when_episodes_end
    {seeding : Seeding} {environment : RL.Environment} {the_agent : RL.Agent}
    (k fuel : nat) (cfg : RL.Config) (env0 : RL.env) (agent0 : RL.agent)
    (w : RL.World) (g : rng)
    (Hseed : set_seed_everywhere (RL.random_seed cfg) (RL.generators w) = (g, Py.Ok tt))
    (Hrep : RL.env_action_repeat cfg <> 0)
    (Hobs : RL.observation_shape <> []) (Hact : RL.action_shape <> [])
    (Hends : forall e, RL.ends_within k (fst (RL.env_reset e)) (snd (RL.env_reset e)))
    (Hfuel : (k <= fuel)%nat) :
  Py.outcome (RL.train fuel cfg env0 agent0 w) = Py.Ok tt
  /\ RL.train fuel cfg env0 agent0 w = RL.train k cfg env0 agent0 w.
Proof.
  rewrite !(rl_train_under_accepted_seed _ cfg env0 agent0 w g Hseed).
  rewrite !rl_train_after_seed_eq.
  apply Z.eqb_neq in Hrep. rewrite Hrep.
  rewrite !bool_decide_eq_false_2 by assumption. cbn [orb].
  match goal with
  | |- context [RL.for_episodes fuel cfg ?l ?o ?w1] =>
      destruct (for_episodes_ends cfg k fuel l Hends Hfuel o w1) as (-> & o' & Ho)
  end.
  rewrite Ho. auto.
Qed.

Lemma driver_returns_when_episodes_end_witness :
  Py.outcome
    (@RL.train Toy.seeding Toy.environment Toy.agent 10 (Toy.rl_cfg 42) 0 tt
       (Toy.rl_world 7 (fun _ => 0)))
  = Py.Ok tt.
Proof.
  refine (proj1 (@driver_returns_when_episodes_end Toy.seeding Toy.environment
                   Toy.agent 2 10 (Toy.rl_cfg 42) 0 tt
                   (Toy.rl_world 7 (fun _ => 0)) 42 _ _ _ _ _ _)).
  - reflexivity.
  - discriminate.
  - discriminate.
  - discriminate.
  - intros e. right. intros a. right. intros a'. left. reflexivity.
  - lia.
Defined.
